(** * AppTimeTracker: the session tracker of [main.py]

    A shallow embedding of the polling loop, the signal handler and the
    SQLite tables of [main.py], with the properties of the session
    tracker stated and proved over it.

    - a naive [datetime.datetime] is an instant at microsecond
      resolution, represented by its number of microseconds;
    - the SQLite file is a record of two optional row lists (a table
      that does not exist is [None]);
    - [_app_started_time] is a Python dict: an association list in
      insertion order with unique keys, because the signal handler
      iterates over it;
    - [app_name_id_mapping] is only ever looked up: a [gmap];
    - exceptions are the [Raise] results of an error monad. *)

From stdpp Require Import base option list gmap strings sorting.
From Stdlib Require Import ZArith Lia.

Local Open Scope Z_scope.

(** * Exceptions *)

Inductive exn :=
| KeyError (key : string)
| OperationalError (table : string)
| IntegrityError (column : string).

Inductive result (A : Type) :=
| Ok (a : A)
| Raise (e : exn).

Arguments Ok {A} a.
Arguments Raise {A} e.

#[global] Instance result_ret : MRet result := fun A a => Ok a.

#[global] Instance result_bind : MBind result :=
  fun A B f r => match r with Ok a => f a | Raise e => Raise e end.

(** * Constants of the module (lines 11-15) *)

Definition APPS_TABLE_NAME : string := "apps".
Definition TIME_TRACKING_TABLE_NAME : string := "time_tracking".
Definition TRACKED_APPS : list string :=
  ["code"; "firefox"; "pycharm"; "konsole"; "spotify"; "nvim"; "foot"]%string.
Definition DEFAULT_SLEEP_TIME : Z := 60.

(** * Timestamps and their differences *)

Definition datetime := Z.

(** The instant [s] whole seconds after the origin. *)
Definition at_second (s : Z) : datetime := s * 1000000.

Module timedelta.

(** Python keeps a [timedelta] normalised: [0 <= seconds < 86400] and
    [0 <= microseconds < 1000000]; only [days] carries the sign. *)
Record t := { days : Z; seconds : Z; microseconds : Z }.

Definition of_microseconds (us : Z) : t :=
  {| days := (us `div` 1000000) `div` 86400;
     seconds := (us `div` 1000000) `mod` 86400;
     microseconds := us `mod` 1000000 |}.

Definition total_microseconds (d : t) : Z :=
  (days d * 86400 + seconds d) * 1000000 + microseconds d.

(** [floor (d.total_seconds ())]: the elapsed whole seconds. *)
Definition whole_seconds (d : t) : Z := total_microseconds d `div` 1000000.

End timedelta.

(** [a - b] on two datetimes. *)
Definition datetime_sub (a b : datetime) : timedelta.t :=
  timedelta.of_microseconds (a - b).

(** The text of a timestamp.  [isoformat] is injective on naive
    datetimes and [fromisoformat] inverts it, so the text is
    represented by the instant it spells. *)
Inductive iso_text := IsoText (instant : datetime).

Definition encode_time (time : datetime) : iso_text := IsoText time.

Definition decode_time (time : iso_text) : datetime :=
  match time with IsoText instant => instant end.

(** * The Python dict [_app_started_time] *)

Module dict.

Definition t := list (string * datetime).

Definition empty : t := [].

Fixpoint get (d : t) (k : string) : option datetime :=
  match d with
  | [] => None
  | (k', v) :: d' => if decide (k' = k) then Some v else get d' k
  end.

(** [d[k] = v]: an existing key keeps its place, a new key goes last. *)
Fixpoint set (d : t) (k : string) (v : datetime) : t :=
  match d with
  | [] => [(k, v)]
  | (k', v') :: d' =>
      if decide (k' = k) then (k, v) :: d' else (k', v') :: set d' k v
  end.

Fixpoint remove (d : t) (k : string) : t :=
  match d with
  | [] => []
  | (k', v') :: d' =>
      if decide (k' = k) then d' else (k', v') :: remove d' k
  end.

(** [del d[k]] raises [KeyError] on a missing key. *)
Definition del (d : t) (k : string) : result t :=
  match get d k with
  | None => Raise (KeyError k)
  | Some _ => Ok (remove d k)
  end.

Definition items (d : t) : list (string * datetime) := d.

Definition keys (d : t) : list string := fst <$> d.

(** The keys of a dict are pairwise distinct. *)
Definition wf (d : t) : Prop := NoDup (keys d).

End dict.

(** * The SQLite file *)

Record AppsRow := { ROWID : Z; name : string }.

#[global] Instance AppsRow_eq_dec : EqDecision AppsRow.
Proof. solve_decision. Defined.

Record TimeTrackingRow := {
  app_id : Z;
  start_time : iso_text;
  end_time : iso_text;
  seconds : Z
}.

Record Database := {
  apps : option (list AppsRow);
  time_tracking : option (list TimeTrackingRow)
}.

(** SQLite gives a new row the largest ROWID in use plus one, and 1 in
    an empty table. *)
Definition next_rowid (rows : list AppsRow) : Z :=
  match ROWID <$> rows with
  | [] => 1
  | r :: rs => 1 + foldr Z.max r rs
  end.

(** ** class SQLiteTable (lines 37-57) *)

Class SQLiteTable (Row Kwargs : Type) := {
  _table_name : string;
  (** the rows of the table in a database, [None] when it is absent *)
  rows_of : Database -> option (list Row);
  with_rows : option (list Row) -> Database -> Database;
  (** the row an INSERT of these columns adds, or the constraint it
      violates *)
  new_row : list Row -> Kwargs -> result Row
}.

Section SQLiteTable.
Context {Row Kwargs : Type} (self : SQLiteTable Row Kwargs).

Definition create_table_if_not_exists (cur : Database) : Database :=
  match rows_of cur with
  | Some _ => cur
  | None => with_rows (Some []) cur
  end.

Definition drop_table_if_exists (cur : Database) : Database :=
  with_rows None cur.

Definition table_exists (cur : Database) : bool :=
  match rows_of cur with
  | Some _ => true
  | None => false
  end.

Definition insert (cur : Database) (kwargs : Kwargs) : result Database :=
  match rows_of cur with
  | None => Raise (OperationalError _table_name)
  | Some rows =>
      row ← new_row rows kwargs;
      Ok (with_rows (Some (rows ++ [row])) cur)
  end.

End SQLiteTable.

(** ** class AppsTable (lines 60-67): column [name TEXT UNIQUE] *)

#[global] Instance apps_table : SQLiteTable AppsRow string := {|
  _table_name := APPS_TABLE_NAME;
  rows_of cur := apps cur;
  with_rows rows cur := {| apps := rows; time_tracking := time_tracking cur |};
  new_row rows app :=
    if bool_decide (app ∈ name <$> rows)
    then Raise (IntegrityError "name")
    else Ok {| ROWID := next_rowid rows; name := app |}
|}.

(** The dict comprehension [{row[1]: row[0] for row in ...}]: a later
    row overrides an earlier one of the same name. *)
Definition name_id_dict (rows : list AppsRow) : gmap string Z :=
  foldl (fun m row => <[name row := ROWID row]> m) ∅ rows.

Definition get_app_name_id_mapping (cur : Database)
  : result (gmap string Z) :=
  match apps cur with
  | None => Raise (OperationalError APPS_TABLE_NAME)
  | Some rows => Ok (name_id_dict rows)
  end.

(** ** class TimeTrackingTable (lines 69-82) *)

#[global] Instance time_tracking_table
  : SQLiteTable TimeTrackingRow TimeTrackingRow := {|
  _table_name := TIME_TRACKING_TABLE_NAME;
  rows_of cur := time_tracking cur;
  with_rows rows cur := {| apps := apps cur; time_tracking := rows |};
  new_row rows row := Ok row
|}.

(** [time_tracking JOIN apps ON time_tracking.app_id = apps.ROWID]:
    every pair of a session row and an apps row of that id, with the
    columns [time_tracking.*, apps.name]. *)
Definition join_on_app_id (sessions : list TimeTrackingRow)
    (rows : list AppsRow) : list (TimeTrackingRow * string) :=
  session ← sessions;
  app ← filter (fun app => ROWID app = app_id session) rows;
  [(session, name app)].

Definition join_apps_table (cur : Database)
  : result (list (TimeTrackingRow * string)) :=
  match time_tracking cur, apps cur with
  | None, _ => Raise (OperationalError TIME_TRACKING_TABLE_NAME)
  | _, None => Raise (OperationalError APPS_TABLE_NAME)
  | Some sessions, Some rows => Ok (join_on_app_id sessions rows)
  end.

(** [SUM] over a group.  The seconds of a row are below 86400, so the
    64-bit bound of SQLite integers is out of reach and left out. *)
Definition sum (l : list Z) : Z := foldr Z.add 0 l.

(** [SELECT apps.name, SUM(seconds) ... GROUP BY apps.name]: one output
    row per distinct name of the join. *)
Definition get_app_time_sum (cur : Database) : result (list (string * Z)) :=
  joined ← join_apps_table cur;
  Ok ((fun group =>
         (group,
          sum (seconds ∘ fst <$> filter (fun jr => snd jr = group) joined)))
        <$> remove_dups (snd <$> joined)).

(** * Start-up (lines 104-114 and 184-189) *)

(** The body of the loop of [populate_apps_table_if_needed]: the app
    is inserted when no row of the apps table has its name. *)
Definition populate_app_if_needed (cur : Database) (app : string)
  : result Database :=
  match apps cur with
  | None => Raise (OperationalError APPS_TABLE_NAME)
  | Some rows =>
      match filter (fun row => name row = app) rows with
      | [] => insert apps_table cur app
      | _ :: _ => Ok cur
      end
  end.

Fixpoint populate_apps (tracked : list string) (cur : Database)
  : result Database :=
  match tracked with
  | [] => Ok cur
  | app :: tracked' =>
      cur' ← populate_app_if_needed cur app;
      populate_apps tracked' cur'
  end.

Definition populate_apps_table_if_needed (cur : Database) : result Database :=
  populate_apps TRACKED_APPS cur.

Definition populate_time_tracking_table_if_needed (cur : Database)
  : Database :=
  if table_exists time_tracking_table cur then cur
  else create_table_if_not_exists time_tracking_table cur.

(** [--clear-db] (lines 151-155). *)
Definition clear_db (cur : Database) : Database :=
  drop_table_if_exists time_tracking_table
    (drop_table_if_exists apps_table cur).

(** Lines 184-189: the database the main loop runs on and the value of
    the global [app_name_id_mapping]. *)
Definition startup (cur : Database) : result (Database * gmap string Z) :=
  let cur := create_table_if_not_exists apps_table cur in
  let cur := create_table_if_not_exists time_tracking_table cur in
  cur ← populate_apps_table_if_needed cur;
  let cur := populate_time_tracking_table_if_needed cur in
  app_name_id_mapping ← get_app_name_id_mapping cur;
  Ok (cur, app_name_id_mapping).

(** * The tracker *)

(** The mutable state of the process: the global dict and the file
    behind the cursor. *)
Record State := {
  _app_started_time : dict.t;
  cur : Database
}.

(** [d[k]] on the id mapping. *)
Definition getitem (d : gmap string Z) (k : string) : result Z :=
  match d !! k with
  | Some v => Ok v
  | None => Raise (KeyError k)
  end.

(** The body of [for app in TRACKED_APPS] in the main loop (lines
    195-231), the tracker's observe step: [running] is what
    [app_running app] answered and [now] what [datetime.now ()]
    returned on line 195. *)
Definition observe (app_name_id_mapping : gmap string Z)
    (app : string) (running : bool) (now : datetime) (st : State)
  : result State :=
  if running then
    match dict.get (_app_started_time st) app with
    | None =>
        Ok {| _app_started_time := dict.set (_app_started_time st) app now;
              cur := cur st |}
    | Some start => Ok st
    end
  else
    match dict.get (_app_started_time st) app with
    | None => Ok st
    | Some start =>
        id ← getitem app_name_id_mapping app;
        cur' ← insert time_tracking_table (cur st)
                 {| app_id := id;
                    start_time := encode_time start;
                    end_time := encode_time now;
                    seconds := timedelta.seconds (datetime_sub now start) |};
        started ← dict.del (_app_started_time st) app;
        Ok {| _app_started_time := started; cur := cur' |}
    end.

(** One observation: the app polled, the answer of the presence check
    and the clock reading taken for it. *)
Record Observation := {
  obs_app : string;
  obs_running : bool;
  obs_now : datetime
}.

(** The main loop over a finite prefix of its observations. *)
Fixpoint run (app_name_id_mapping : gmap string Z)
    (trace : list Observation) (st : State) : result State :=
  match trace with
  | [] => Ok st
  | o :: trace' =>
      st' ← observe app_name_id_mapping
              (obs_app o) (obs_running o) (obs_now o) st;
      run app_name_id_mapping trace' st'
  end.

(** One pass of [for app in TRACKED_APPS] (lines 194-231): the i-th
    app is polled with the i-th answer and the i-th clock reading. *)
Definition tick_trace (running : nat -> bool) (clock : nat -> datetime)
  : list Observation :=
  imap (fun i app =>
          {| obs_app := app; obs_running := running i; obs_now := clock i |})
       TRACKED_APPS.

Definition tick (app_name_id_mapping : gmap string Z)
    (running : nat -> bool) (clock : nat -> datetime) (st : State)
  : result State :=
  run app_name_id_mapping (tick_trace running clock) st.

(** * The signal handler [_exit] (lines 116-138) *)

(** The loop of the handler over [_app_started_time.items ()]; [clock
    i] is what the i-th call of [datetime.now ()] returns. *)
Fixpoint _exit_loop (app_name_id_map : gmap string Z)
    (clock : nat -> datetime) (items : list (string * datetime))
    (cur : Database) : result Database :=
  match items with
  | [] => Ok cur
  | (app, start) :: items' =>
      let now := clock 0%nat in
      let secs := timedelta.seconds (datetime_sub now start) in
      id ← getitem app_name_id_map app;
      cur' ← insert time_tracking_table cur
               {| app_id := id;
                  start_time := encode_time start;
                  end_time := encode_time now;
                  seconds := secs |};
      _exit_loop app_name_id_map (fun i => clock (S i)) items' cur'
  end.

(** The handler up to [sys.exit]: the state the process ends in.  The
    handler is installed on line 149, after [_cursor_to_close] is set on
    line 148, so the test of line 118 holds whenever it runs.  The dict
    is read, never written. *)
Definition _exit (clock : nat -> datetime) (st : State) : result State :=
  app_name_id_map ← get_app_name_id_mapping (cur st);
  cur' ← _exit_loop app_name_id_map clock
           (dict.items (_app_started_time st)) (cur st);
  Ok {| _app_started_time := _app_started_time st; cur := cur' |}.

(** The state of the process when the main loop starts: an empty dict
    (line 87) over the database prepared by start-up. *)
Definition initial_state (cur : Database) : State :=
  {| _app_started_time := dict.empty; cur := cur |}.

Definition empty_database : Database :=
  {| apps := None; time_tracking := None |}.

(** The row both INSERTs build (lines 220-226 and 123-129) for a
    session of the app of id [id] from [start] to [now]. *)
Definition session_row (id : Z) (start now : datetime) : TimeTrackingRow :=
  {| app_id := id;
     start_time := encode_time start;
     end_time := encode_time now;
     seconds := timedelta.seconds (datetime_sub now start) |}.

(** The observation of [app] at [now]. *)
Definition observed (app : string) (running : bool) (now : datetime)
  : Observation :=
  {| obs_app := app; obs_running := running; obs_now := now |}.

(** ** One app's view of a run

    The observations of one app in a trace, and what they alone call
    for: the rows to be written for the app and the start left recorded
    for it.  The projection lemma below shows that a run of the main
    loop does exactly this for every app at once. *)
Definition observations_of (app : string) (trace : list Observation)
  : list (bool * datetime) :=
  (fun o => (obs_running o, obs_now o))
    <$> filter (fun o => obs_app o = app) trace.

Fixpoint closed_sessions (id : Z) (started : option datetime)
    (obs : list (bool * datetime)) : list TimeTrackingRow :=
  match obs with
  | [] => []
  | (true, now) :: obs' =>
      closed_sessions id (Some (default now started)) obs'
  | (false, now) :: obs' =>
      match started with
      | None => closed_sessions id None obs'
      | Some start => session_row id start now :: closed_sessions id None obs'
      end
  end.

Fixpoint still_open (started : option datetime)
    (obs : list (bool * datetime)) : option datetime :=
  match obs with
  | [] => started
  | (true, now) :: obs' => still_open (Some (default now started)) obs'
  | (false, now) :: obs' => still_open None obs'
  end.

(** ** A fresh installation

    What start-up leaves on an empty file, used to instantiate the
    statements below. *)
Definition fresh_database : Database :=
  {| apps := Some [ {| ROWID := 1; name := "code" |};
                    {| ROWID := 2; name := "firefox" |};
                    {| ROWID := 3; name := "pycharm" |};
                    {| ROWID := 4; name := "konsole" |};
                    {| ROWID := 5; name := "spotify" |};
                    {| ROWID := 6; name := "nvim" |};
                    {| ROWID := 7; name := "foot" |} ];
     time_tracking := Some [] |}.

Definition fresh_mapping : gmap string Z :=
  list_to_map [ ("code", 1); ("firefox", 2); ("pycharm", 3); ("konsole", 4);
                ("spotify", 5); ("nvim", 6); ("foot", 7) ]%string.

(** The state in which [app] alone is open, since [start]. *)
Definition open_since (app : string) (start : datetime) : State :=
  {| _app_started_time := dict.set dict.empty app start;
     cur := fresh_database |}.

(** ** The loop and the reports *)

(** [n] passes of [while True] (lines 193-234): pass [k] polls with the
    answers [running k] and the clock readings [clock k].  The sleep
    between two passes leaves the state alone. *)
Fixpoint main_loop (n : nat) (app_name_id_mapping : gmap string Z)
    (running : nat -> nat -> bool) (clock : nat -> nat -> datetime)
    (st : State) : result State :=
  match n with
  | O => Ok st
  | S n' =>
      st' ← tick app_name_id_mapping (running O) (clock O) st;
      main_loop n' app_name_id_mapping
        (fun k => running (S k)) (fun k => clock (S k)) st'
  end.

(** The numbers [--report] prints for one row of the query (lines
    160-165): the name and the three fields given to [format]. *)
Definition report_line (row : string * Z) : string * Z * Z * Z :=
  let '(app_name, total_s) := row in
  let h := total_s `div` 3600 in
  let m := (total_s `mod` 3600) `div` 60 in
  let s := total_s `mod` 60 in
  (app_name, h, m, s).

(** [--report] (lines 157-166), one entry per printed line. *)
Definition report (cur : Database) : result (list (string * Z * Z * Z)) :=
  get_app_time_sum cur ≫= fun rows : list (string * Z) =>
  Ok (report_line <$> rows).

(** [--hour-report-for] (lines 174-182): the totals of the rows that
    pass the test of line 177, one per printed line; the division by
    3600 and the formatting of line 181 are floating point and stay
    with Python. *)
Definition hour_report_for (cur : Database) (target : string)
  : result (list Z) :=
  get_app_time_sum cur ≫= fun rows : list (string * Z) =>
  Ok (snd <$> filter (fun row => row.1 = target) rows).

(** * Properties of timestamps *)

Lemma seconds_of_microseconds_range (us : Z) :
  0 <= timedelta.seconds (timedelta.of_microseconds us) <= 86399.
Proof.
  unfold timedelta.of_microseconds; simpl.
  pose proof (Z.mod_pos_bound (us `div` 1000000) 86400); lia.
Qed.

Lemma microseconds_of_microseconds_range (us : Z) :
  0 <= timedelta.microseconds (timedelta.of_microseconds us) < 1000000.
Proof.
  unfold timedelta.of_microseconds; simpl.
  apply Z.mod_pos_bound; lia.
Qed.

(** Normalisation loses nothing: the three fields add up to the
    difference they were made from. *)
Lemma total_of_microseconds (us : Z) :
  timedelta.total_microseconds (timedelta.of_microseconds us) = us.
Proof.
  unfold timedelta.total_microseconds, timedelta.of_microseconds; simpl.
  pose proof (Z.div_mod us 1000000).
  pose proof (Z.div_mod (us `div` 1000000) 86400).
  lia.
Qed.

Lemma whole_seconds_of_microseconds (us : Z) :
  timedelta.whole_seconds (timedelta.of_microseconds us) = us `div` 1000000.
Proof.
  unfold timedelta.whole_seconds. by rewrite total_of_microseconds.
Qed.

(** The [seconds] field is the elapsed whole seconds modulo a day. *)
Lemma seconds_is_whole_seconds_mod_day (a b : datetime) :
  timedelta.seconds (datetime_sub a b)
  = timedelta.whole_seconds (datetime_sub a b) `mod` 86400.
Proof.
  unfold datetime_sub. by rewrite whole_seconds_of_microseconds.
Qed.

(** Below one day, and forward in time, the field is the duration. *)
Lemma seconds_below_a_day (a b : datetime) :
  0 <= a - b < 86400 * 1000000 ->
  timedelta.seconds (datetime_sub a b)
  = timedelta.whole_seconds (datetime_sub a b).
Proof.
  intros Hd. rewrite seconds_is_whole_seconds_mod_day.
  apply Z.mod_small.
  unfold datetime_sub. rewrite whole_seconds_of_microseconds.
  split.
  - apply Z.div_pos; lia.
  - apply Z.div_lt_upper_bound; lia.
Qed.

Lemma decode_encode_time (time : datetime) :
  decode_time (encode_time time) = time.
Proof. reflexivity. Qed.

(** * Properties of the dict *)

Lemma dict_get_set_eq (d : dict.t) k v :
  dict.get (dict.set d k v) k = Some v.
Proof.
  induction d as [|[k' v'] d IH]; csimpl.
  - by rewrite decide_True.
  - destruct (decide (k' = k)) as [->|Hne]; csimpl.
    + by rewrite decide_True.
    + by rewrite decide_False.
Qed.

Lemma dict_get_set_ne (d : dict.t) k k' v :
  k' ≠ k -> dict.get (dict.set d k v) k' = dict.get d k'.
Proof.
  intros Hne. induction d as [|[k0 v0] d IH]; csimpl.
  - by rewrite decide_False.
  - destruct (decide (k0 = k)) as [->|Hk]; csimpl.
    + by rewrite !decide_False.
    + by rewrite IH.
Qed.

Lemma dict_get_remove_ne (d : dict.t) k k' :
  k' ≠ k -> dict.get (dict.remove d k) k' = dict.get d k'.
Proof.
  intros Hne. induction d as [|[k0 v0] d IH]; csimpl; [done|].
  destruct (decide (k0 = k)) as [->|Hk]; csimpl.
  - by rewrite decide_False.
  - by rewrite IH.
Qed.

Lemma dict_get_None (d : dict.t) k :
  dict.get d k = None <-> k ∉ dict.keys d.
Proof.
  unfold dict.keys.
  induction d as [|[k0 v0] d IH]; csimpl.
  - split; [intros _; apply not_elem_of_nil | done].
  - rewrite not_elem_of_cons. destruct (decide (k0 = k)) as [->|Hk].
    + split; [done | by intros [? _]].
    + rewrite IH. split; [intros ?; split; [congruence | done] | by intros [_ ?]].
Qed.

Lemma dict_keys_remove_subseteq (d : dict.t) k :
  dict.keys (dict.remove d k) ⊆ dict.keys d.
Proof.
  unfold dict.keys.
  induction d as [|[k0 v0] d IH]; csimpl; [done|].
  destruct (decide (k0 = k)); csimpl.
  - intros x Hx. apply elem_of_cons. by right.
  - intros x. rewrite !elem_of_cons. intros [->|Hx]; [by left | right; by apply IH].
Qed.

Lemma dict_get_remove_eq (d : dict.t) k :
  dict.wf d -> dict.get (dict.remove d k) k = None.
Proof.
  unfold dict.wf, dict.keys.
  induction d as [|[k0 v0] d IH]; csimpl; [done|].
  intros Hnd. apply NoDup_cons in Hnd as [Hk0 Hnd].
  destruct (decide (k0 = k)) as [->|Hk]; csimpl.
  - by apply dict_get_None.
  - rewrite decide_False by done. by apply IH.
Qed.

Lemma dict_wf_empty : dict.wf dict.empty.
Proof. apply NoDup_nil_2. Qed.

Lemma dict_wf_remove (d : dict.t) k : dict.wf d -> dict.wf (dict.remove d k).
Proof.
  unfold dict.wf, dict.keys.
  induction d as [|[k0 v0] d IH]; csimpl; [done|].
  intros Hnd. apply NoDup_cons in Hnd as [Hk0 Hnd].
  destruct (decide (k0 = k)); csimpl; [done|].
  apply NoDup_cons. split; [|by apply IH].
  intros Hin. apply Hk0. by apply (dict_keys_remove_subseteq d k).
Qed.

Lemma dict_keys_set (d : dict.t) k v x :
  x ∈ dict.keys (dict.set d k v) <-> x = k \/ x ∈ dict.keys d.
Proof.
  unfold dict.keys.
  induction d as [|[k0 v0] d IH]; csimpl.
  - rewrite list_elem_of_singleton. split; [by left | intros [?|?%elem_of_nil]; done].
  - destruct (decide (k0 = k)) as [->|Hk]; csimpl.
    + rewrite !elem_of_cons. tauto.
    + rewrite !elem_of_cons, IH. tauto.
Qed.

Lemma dict_wf_set (d : dict.t) k v : dict.wf d -> dict.wf (dict.set d k v).
Proof.
  unfold dict.wf.
  induction d as [|[k0 v0] d IH]; csimpl.
  - intros _. apply NoDup_singleton.
  - intros Hnd. apply NoDup_cons in Hnd as [Hk0 Hnd].
    destruct (decide (k0 = k)) as [->|Hk]; csimpl.
    + by apply NoDup_cons.
    + apply NoDup_cons. split; [|by apply IH].
      change (k0 ∉ dict.keys (dict.set d k v)).
      rewrite dict_keys_set. intros [?|?]; [congruence | done].
Qed.

Lemma dict_del_Some (d : dict.t) k v :
  dict.get d k = Some v -> dict.del d k = Ok (dict.remove d k).
Proof. unfold dict.del. by intros ->. Qed.

(** * Start-up *)

Lemma startup_fresh :
  startup empty_database = Ok (fresh_database, fresh_mapping).
Proof. vm_compute. reflexivity. Qed.

(** * One step of the tracker *)

(** Every successful step is one of three moves. *)
Lemma observe_inv m app running now st st' :
  observe m app running now st = Ok st' ->
  st' = st
  \/ (running = true /\ dict.get (_app_started_time st) app = None /\
      st' = {| _app_started_time := dict.set (_app_started_time st) app now;
               cur := cur st |})
  \/ (running = false /\
      exists start id rows,
        dict.get (_app_started_time st) app = Some start /\
        m !! app = Some id /\
        time_tracking (cur st) = Some rows /\
        st' = {| _app_started_time := dict.remove (_app_started_time st) app;
                 cur := {| apps := apps (cur st);
                           time_tracking :=
                             Some (rows ++ [session_row id start now]) |} |}).
Proof.
  unfold observe. destruct running.
  - destruct (dict.get _ app) eqn:Hget; intros [= <-]; [by left|].
    right; left. done.
  - destruct (dict.get _ app) as [start|] eqn:Hget; [|intros [= <-]; by left].
    unfold getitem. destruct (m !! app) as [id|] eqn:Hm; [|done].
    unfold insert; simpl.
    destruct (time_tracking (cur st)) as [rows|] eqn:Hrows; [|done].
    simpl. rewrite (dict_del_Some _ _ _ Hget). simpl. intros [= <-].
    right; right. split; [done|]. by exists start, id, rows.
Qed.

(** The closing step, when it has what it needs. *)
Lemma observe_stopped m app now st start id rows :
  dict.get (_app_started_time st) app = Some start ->
  m !! app = Some id ->
  time_tracking (cur st) = Some rows ->
  observe m app false now st
  = Ok {| _app_started_time := dict.remove (_app_started_time st) app;
          cur := {| apps := apps (cur st);
                    time_tracking :=
                      Some (rows ++ [session_row id start now]) |} |}.
Proof.
  intros Hget Hm Hrows. unfold observe, getitem, insert. simpl.
  rewrite Hget, Hm, Hrows. simpl. by rewrite (dict_del_Some _ _ _ Hget).
Qed.

(** A step never fails for an app with an id once the session table
    exists. *)
Lemma observe_total m app running now st :
  is_Some (m !! app) -> is_Some (time_tracking (cur st)) ->
  exists st', observe m app running now st = Ok st'.
Proof.
  intros [id Hm] [rows Hrows].
  destruct running; [unfold observe; destruct (dict.get _ app); eauto|].
  destruct (dict.get (_app_started_time st) app) as [start|] eqn:Hget.
  - rewrite (observe_stopped _ _ _ _ _ _ _ Hget Hm Hrows). eauto.
  - unfold observe. rewrite Hget. eauto.
Qed.

(** C2.  The observe step follows the four-way case split: not running
    with no recorded start changes nothing and emits nothing; running
    with no recorded start records [now] as the start and emits
    nothing; running with a recorded start changes nothing and emits
    nothing; not running with a recorded start [S] removes the entry and
    appends one session row of that app from [S] to [now]. *)
Theorem observe_case_split (m : gmap string Z) (app : string)
    (now : datetime) (st : State) :
  (dict.get (_app_started_time st) app = None ->
   observe m app false now st = Ok st) /\
  (dict.get (_app_started_time st) app = None ->
   exists st',
     observe m app true now st = Ok st' /\
     dict.get (_app_started_time st') app = Some now /\
     cur st' = cur st) /\
  (forall S,
     dict.get (_app_started_time st) app = Some S ->
     observe m app true now st = Ok st) /\
  (forall S id rows,
     dict.get (_app_started_time st) app = Some S ->
     dict.wf (_app_started_time st) ->
     m !! app = Some id ->
     time_tracking (cur st) = Some rows ->
     exists st',
       observe m app false now st = Ok st' /\
       dict.get (_app_started_time st') app = None /\
       apps (cur st') = apps (cur st) /\
       time_tracking (cur st')
       = Some (rows ++ [ {| app_id := id;
                            start_time := encode_time S;
                            end_time := encode_time now;
                            seconds :=
                              timedelta.seconds (datetime_sub now S) |} ])).
Proof.
  repeat split.
  - intros Hget. unfold observe. by rewrite Hget.
  - intros Hget. unfold observe. rewrite Hget.
    eexists; split; [done|]. simpl. by rewrite dict_get_set_eq.
  - intros S Hget. unfold observe. by rewrite Hget.
  - intros S id rows Hget Hwf Hm Hrows.
    rewrite (observe_stopped _ _ _ _ _ _ _ Hget Hm Hrows).
    eexists; split; [done|]. simpl.
    by rewrite dict_get_remove_eq.
Qed.

Lemma observe_case_split_witness :
  observe fresh_mapping "nvim" false (at_second 180) (open_since "code" 0)
  = Ok (open_since "code" 0) /\
  (exists st',
     observe fresh_mapping "nvim" true (at_second 180) (open_since "code" 0)
     = Ok st' /\
     dict.get (_app_started_time st') "nvim" = Some (at_second 180) /\
     cur st' = fresh_database) /\
  observe fresh_mapping "code" true (at_second 180) (open_since "code" 0)
  = Ok (open_since "code" 0) /\
  (exists st',
     observe fresh_mapping "code" false (at_second 180) (open_since "code" 0)
     = Ok st' /\
     dict.get (_app_started_time st') "code" = None /\
     apps (cur st') = apps fresh_database /\
     time_tracking (cur st')
     = Some [ {| app_id := 1;
                 start_time := encode_time 0;
                 end_time := encode_time (at_second 180);
                 seconds := 180 |} ]).
Proof.
  destruct (observe_case_split fresh_mapping "nvim" (at_second 180)
              (open_since "code" 0)) as (Hidle & Hstart & _ & _).
  destruct (observe_case_split fresh_mapping "code" (at_second 180)
              (open_since "code" 0)) as (_ & _ & Hkeep & Hstop).
  split; [apply Hidle; reflexivity|].
  split; [apply Hstart; reflexivity|].
  split; [apply (Hkeep 0); reflexivity|].
  apply (Hstop 0 1 []); [reflexivity | | reflexivity | reflexivity].
  apply NoDup_singleton.
Defined.

(** C9.  A step for [app] leaves the entry of every other app as it
    was, present or absent and with the same start; and the step does
    go through for an app that has an id once the session table
    exists. *)
Theorem observe_frame (m : gmap string Z) (app app' : string)
    (running : bool) (now : datetime) (st : State) :
  app' ≠ app ->
  (forall st',
     observe m app running now st = Ok st' ->
     dict.get (_app_started_time st') app'
     = dict.get (_app_started_time st) app') /\
  (is_Some (m !! app) -> is_Some (time_tracking (cur st)) ->
   exists st', observe m app running now st = Ok st').
Proof.
  intros Hne. split; [|apply observe_total].
  intros st' Hobs.
  destruct (observe_inv _ _ _ _ _ _ Hobs)
    as [-> | [(_ & _ & ->) | (_ & start & id & rows & _ & _ & _ & ->)]];
    simpl.
  - done.
  - by apply dict_get_set_ne.
  - by apply dict_get_remove_ne.
Qed.

Lemma observe_frame_witness :
  "firefox"%string ≠ "code"%string /\
  (forall st',
     observe fresh_mapping "code" false (at_second 180)
       {| _app_started_time := [("code", 0); ("firefox", 7)]%string;
          cur := fresh_database |} = Ok st' ->
     dict.get (_app_started_time st') "firefox" = Some 7) /\
  (exists st',
     observe fresh_mapping "code" false (at_second 180)
       {| _app_started_time := [("code", 0); ("firefox", 7)]%string;
          cur := fresh_database |} = Ok st').
Proof.
  assert (Hne : "firefox"%string ≠ "code"%string) by discriminate.
  destruct (observe_frame fresh_mapping "code" "firefox" false (at_second 180)
              {| _app_started_time := [("code", 0); ("firefox", 7)]%string;
                 cur := fresh_database |} Hne) as [Hframe Htotal].
  split; [exact Hne|]. split.
  - intros st' Hobs. rewrite (Hframe st' Hobs). reflexivity.
  - apply Htotal; vm_compute; eauto.
Defined.

(** * What a run and the handler write *)

Section Appended.
Variable P : TimeTrackingRow -> Prop.
Hypothesis P_session_row : forall id start now, P (session_row id start now).

Lemma observe_appends m app running now st st' rows :
  observe m app running now st = Ok st' ->
  time_tracking (cur st) = Some rows ->
  exists new,
    time_tracking (cur st') = Some (rows ++ new) /\ Forall P new /\
    apps (cur st') = apps (cur st).
Proof.
  intros Hobs Hrows.
  destruct (observe_inv _ _ _ _ _ _ Hobs)
    as [-> | [(_ & _ & ->) | (_ & start & id & rows0 & _ & _ & Hrows0 & ->)]];
    simpl.
  - exists []. by rewrite app_nil_r.
  - exists []. by rewrite app_nil_r.
  - exists [session_row id start now].
    rewrite Hrows in Hrows0. injection Hrows0 as <-.
    repeat split. apply Forall_singleton, P_session_row.
Qed.

Lemma run_appends m trace : forall st st' rows,
  run m trace st = Ok st' ->
  time_tracking (cur st) = Some rows ->
  exists new,
    time_tracking (cur st') = Some (rows ++ new) /\ Forall P new /\
    apps (cur st') = apps (cur st).
Proof.
  induction trace as [|o trace IH]; simpl; intros st st' rows Hrun Hrows.
  - injection Hrun as <-. exists []. by rewrite app_nil_r.
  - destruct (observe m (obs_app o) (obs_running o) (obs_now o) st)
      as [st1|] eqn:Hobs; [|done]. simpl in Hrun.
    destruct (observe_appends _ _ _ _ _ _ _ Hobs Hrows)
      as (new1 & Hrows1 & HP1 & Happs1).
    destruct (IH _ _ _ Hrun Hrows1) as (new2 & Hrows2 & HP2 & Happs2).
    exists (new1 ++ new2). rewrite Hrows2, <- app_assoc.
    repeat split; [by apply Forall_app | congruence].
Qed.

Lemma _exit_loop_appends m items : forall clock cur cur' rows,
  _exit_loop m clock items cur = Ok cur' ->
  time_tracking cur = Some rows ->
  exists new,
    time_tracking cur' = Some (rows ++ new) /\ Forall P new /\
    apps cur' = apps cur.
Proof.
  induction items as [|[app start] items IH]; simpl;
    intros clock cur cur' rows Hloop Hrows.
  - injection Hloop as <-. exists []. by rewrite app_nil_r.
  - unfold getitem in Hloop. destruct (m !! app) as [id|]; [|done].
    unfold insert in Hloop. simpl in Hloop. rewrite Hrows in Hloop.
    simpl in Hloop.
    destruct (IH _ _ _ _ Hloop eq_refl) as (new & Hrows' & HP & Happs).
    exists (session_row id start (clock 0%nat) :: new).
    rewrite Hrows', <- app_assoc. simpl in *.
    repeat split; [|done]. apply Forall_cons. split; [|done].
    apply P_session_row.
Qed.

Lemma _exit_appends clock st st' rows :
  _exit clock st = Ok st' ->
  time_tracking (cur st) = Some rows ->
  exists new,
    time_tracking (cur st') = Some (rows ++ new) /\ Forall P new /\
    apps (cur st') = apps (cur st).
Proof.
  unfold _exit. intros Hexit Hrows.
  destruct (get_app_name_id_mapping (cur st)) as [m|]; [|done].
  simpl in Hexit.
  destruct (_exit_loop m clock _ (cur st)) as [cur'|] eqn:Hloop; [|done].
  injection Hexit as <-. simpl.
  by apply (_exit_loop_appends _ _ _ _ _ _ Hloop).
Qed.

End Appended.

(** C10.  The seconds the program persists are the sub-day [seconds]
    field of the difference of the two timestamps, whatever their
    order and distance, and lie between 0 and 86399: this holds of the
    field itself, of every row a run of the main loop appends and of
    every row the signal handler appends. *)
Theorem persisted_seconds_range :
  (forall now start : datetime,
     0 <= timedelta.seconds (datetime_sub now start) <= 86399) /\
  (forall m trace st st' rows,
     run m trace st = Ok st' ->
     time_tracking (cur st) = Some rows ->
     exists new,
       time_tracking (cur st') = Some (rows ++ new) /\
       Forall (fun row => 0 <= seconds row <= 86399) new) /\
  (forall clock st st' rows,
     _exit clock st = Ok st' ->
     time_tracking (cur st) = Some rows ->
     exists new,
       time_tracking (cur st') = Some (rows ++ new) /\
       Forall (fun row => 0 <= seconds row <= 86399) new).
Proof.
  assert (Hrange : forall id start now,
             0 <= seconds (session_row id start now) <= 86399).
  { intros id start now. simpl. apply seconds_of_microseconds_range. }
  split; [|split].
  - intros now start. apply seconds_of_microseconds_range.
  - intros m trace st st' rows Hrun Hrows.
    destruct (run_appends (fun row => 0 <= seconds row <= 86399) Hrange
                _ _ _ _ _ Hrun Hrows) as (new & ? & ? & _).
    by exists new.
  - intros clock st st' rows Hexit Hrows.
    destruct (_exit_appends (fun row => 0 <= seconds row <= 86399) Hrange
                _ _ _ _ Hexit Hrows) as (new & ? & ? & _).
    by exists new.
Qed.

Lemma persisted_seconds_range_witness :
  (0 <= timedelta.seconds (datetime_sub (at_second 90) (at_second 100))
     <= 86399) /\
  (exists new,
     time_tracking
       (cur {| _app_started_time := [];
               cur := {| apps := apps fresh_database;
                         time_tracking :=
                           Some [session_row 1 0 (at_second 90000)] |} |})
     = Some ([] ++ new) /\
     Forall (fun row => 0 <= seconds row <= 86399) new) /\
  (exists new,
     time_tracking
       (cur {| _app_started_time := [("nvim", at_second 100)]%string;
               cur := {| apps := apps fresh_database;
                         time_tracking :=
                           Some [session_row 6 (at_second 100)
                                   (at_second 90)] |} |})
     = Some ([] ++ new) /\
     Forall (fun row => 0 <= seconds row <= 86399) new).
Proof.
  destruct persisted_seconds_range as (Hfield & Hrun & Hexit).
  split; [apply Hfield|]. split.
  - apply (Hrun fresh_mapping
             [observed "code" true 0; observed "code" false (at_second 90000)]
             (initial_state fresh_database)); reflexivity.
  - apply (Hexit (fun _ => at_second 90)
             {| _app_started_time := [("nvim", at_second 100)]%string;
                cur := fresh_database |}); reflexivity.
Defined.

(** C3.  The persisted seconds of a session of exactly 24 hours: the
    elapsed whole seconds are 86400, the closing observe step and the
    signal handler both persist 0. *)
Theorem day_long_session_persists_zero :
  timedelta.whole_seconds (datetime_sub (at_second 86400) (at_second 0))
  = 86400 /\
  (exists st',
     observe fresh_mapping "code" false (at_second 86400)
       (open_since "code" (at_second 0)) = Ok st' /\
     time_tracking (cur st')
     = Some [ {| app_id := 1;
                 start_time := encode_time (at_second 0);
                 end_time := encode_time (at_second 86400);
                 seconds := 0 |} ]) /\
  (exists st',
     _exit (fun _ => at_second 86400) (open_since "code" (at_second 0))
     = Ok st' /\
     time_tracking (cur st')
     = Some [ {| app_id := 1;
                 start_time := encode_time (at_second 0);
                 end_time := encode_time (at_second 86400);
                 seconds := 0 |} ]).
Proof.
  split; [reflexivity|].
  split; eexists; (split; [vm_compute; reflexivity | reflexivity]).
Qed.

(** Up to one day, and with the clock going forward, the persisted
    seconds are the elapsed whole seconds. *)
Lemma session_row_seconds_below_a_day id start now :
  0 <= now - start < 86400 * 1000000 ->
  seconds (session_row id start now)
  = timedelta.whole_seconds (datetime_sub now start).
Proof. intros Hd. simpl. by apply seconds_below_a_day. Qed.

(** C4, counterexample.  The clock read 100 s when "nvim" was first
    seen and 90 s when it was seen gone: the session is written with
    86390 seconds, not 0. *)
Lemma backward_clock_is_not_clamped :
  at_second 90 < at_second 100 /\
  exists st' row,
    observe fresh_mapping "nvim" false (at_second 90)
      (open_since "nvim" (at_second 100)) = Ok st' /\
    time_tracking (cur st') = Some [row] /\
    seconds row = 86390 /\
    seconds row <> 0.
Proof.
  split; [reflexivity|].
  eexists; eexists.
  split; [vm_compute; reflexivity|].
  split; [reflexivity|].
  split; [reflexivity | discriminate].
Qed.

(** C4, amended.  When the app is seen not running at a [now] earlier
    than its recorded start [S], the step goes through, the entry is
    removed and one session row from [S] to [now] is written; its
    seconds are not negative. *)
Theorem backward_clock_session (m : gmap string Z) (app : string)
    (now S : datetime) (id : Z) (rows : list TimeTrackingRow) (st : State) :
  dict.get (_app_started_time st) app = Some S ->
  now < S ->
  dict.wf (_app_started_time st) ->
  m !! app = Some id ->
  time_tracking (cur st) = Some rows ->
  exists st' row,
    observe m app false now st = Ok st' /\
    dict.get (_app_started_time st') app = None /\
    time_tracking (cur st') = Some (rows ++ [row]) /\
    app_id row = id /\
    start_time row = encode_time S /\
    end_time row = encode_time now /\
    0 <= seconds row.
Proof.
  intros Hget Hlt Hwf Hm Hrows.
  rewrite (observe_stopped _ _ _ _ _ _ _ Hget Hm Hrows).
  eexists; eexists. split; [done|]. simpl.
  split; [by apply dict_get_remove_eq|].
  split; [done|]. repeat split.
  apply seconds_of_microseconds_range.
Qed.

Lemma backward_clock_session_witness :
  at_second 90 < at_second 100 /\
  exists st' row,
    observe fresh_mapping "nvim" false (at_second 90)
      (open_since "nvim" (at_second 100)) = Ok st' /\
    dict.get (_app_started_time st') "nvim" = None /\
    time_tracking (cur st') = Some ([] ++ [row]) /\
    app_id row = 6 /\
    start_time row = encode_time (at_second 100) /\
    end_time row = encode_time (at_second 90) /\
    0 <= seconds row.
Proof.
  split; [reflexivity|].
  apply (backward_clock_session fresh_mapping "nvim" (at_second 90)
           (at_second 100) 6 [] (open_since "nvim" (at_second 100)));
    [reflexivity | reflexivity | apply NoDup_singleton
    | reflexivity | reflexivity].
Defined.

(** * The id mapping *)

Lemma name_id_dict_snoc rows row :
  name_id_dict (rows ++ [row]) = <[name row := ROWID row]> (name_id_dict rows).
Proof. unfold name_id_dict. by rewrite foldl_app. Qed.

(** Every id of the mapping is the ROWID of a row of that name. *)
Lemma name_id_dict_Some rows app id :
  name_id_dict rows !! app = Some id ->
  exists row, row ∈ rows /\ name row = app /\ ROWID row = id.
Proof.
  induction rows as [|row rows IH] using rev_ind.
  - unfold name_id_dict; simpl. by rewrite lookup_empty.
  - rewrite name_id_dict_snoc.
    destruct (decide (name row = app)) as [Heq|Hne].
    + rewrite Heq, lookup_insert_eq. intros [= <-].
      exists row. rewrite elem_of_app, list_elem_of_singleton. auto.
    + rewrite lookup_insert_ne by done. intros Hl.
      destruct (IH Hl) as (row' & Hin & ? & ?).
      exists row'. rewrite elem_of_app. auto.
Qed.

(** Every name of the table has an id. *)
Lemma name_id_dict_is_Some rows app :
  app ∈ name <$> rows -> is_Some (name_id_dict rows !! app).
Proof.
  induction rows as [|row rows IH] using rev_ind.
  - intros Hin. by apply elem_of_nil in Hin.
  - rewrite fmap_app, elem_of_app, name_id_dict_snoc. csimpl.
    rewrite list_elem_of_singleton.
    destruct (decide (name row = app)) as [Heq|Hne].
    + rewrite Heq, lookup_insert_eq. eauto.
    + rewrite lookup_insert_ne by done. intros [Hin|Heq]; [auto | congruence].
Qed.

(** With unique names, the id of a name is the ROWID of its row. *)
Lemma name_id_dict_lookup rows row :
  NoDup (name <$> rows) -> row ∈ rows ->
  name_id_dict rows !! name row = Some (ROWID row).
Proof.
  induction rows as [|row' rows IH] using rev_ind.
  - intros _ Hin. by apply elem_of_nil in Hin.
  - rewrite fmap_app, NoDup_app, elem_of_app, name_id_dict_snoc.
    rewrite list_elem_of_singleton. csimpl.
    intros (Hnd & Hdisj & _) [Hin| ->]; [|by rewrite lookup_insert_eq].
    rewrite lookup_insert_ne; [by apply IH|].
    intros Heq. apply (Hdisj (name row)).
    + by apply list_elem_of_fmap_2.
    + rewrite Heq. apply list_elem_of_singleton. done.
Qed.

(** With unique ROWIDs, two names never share an id. *)
Lemma name_id_dict_inj rows app app' id :
  NoDup (ROWID <$> rows) ->
  name_id_dict rows !! app = Some id ->
  name_id_dict rows !! app' = Some id ->
  app = app'.
Proof.
  intros Hnd H1 H2.
  destruct (name_id_dict_Some _ _ _ H1) as (r1 & Hin1 & <- & Hid1).
  destruct (name_id_dict_Some _ _ _ H2) as (r2 & Hin2 & <- & Hid2).
  f_equal. apply (NoDup_fmap_1 ROWID) in Hnd as Hnd'.
  apply list_elem_of_lookup in Hin1 as [i1 Hi1].
  apply list_elem_of_lookup in Hin2 as [i2 Hi2].
  assert (i1 = i2) as ->; [|congruence].
  apply (NoDup_lookup (ROWID <$> rows) i1 i2 id); [done| |].
  - by rewrite list_lookup_fmap, Hi1; simpl; rewrite Hid1.
  - by rewrite list_lookup_fmap, Hi2; simpl; rewrite Hid2.
Qed.

(** * The signal handler *)

(** The loop of the handler writes one row per item, in the order of
    the items, each closed at the clock reading taken for it. *)
Lemma _exit_loop_rows m items : forall clock cur rows,
  time_tracking cur = Some rows ->
  Forall (fun item => is_Some (m !! item.1)) items ->
  exists cur',
    _exit_loop m clock items cur = Ok cur' /\
    apps cur' = apps cur /\
    time_tracking cur'
    = Some (rows ++ imap (fun i item =>
                            session_row (default 0 (m !! item.1)) item.2
                              (clock i)) items).
Proof.
  induction items as [|[app start] items IH]; intros clock cur rows Hrows Hall.
  - exists cur. simpl. by rewrite app_nil_r.
  - apply Forall_cons in Hall as [[id Hid] Hall]. simpl in Hid.
    simpl. unfold getitem, insert. simpl. rewrite Hid, Hrows. simpl.
    destruct (IH (fun i => clock (S i))
                {| apps := apps cur;
                   time_tracking :=
                     Some (rows ++ [session_row id start (clock 0%nat)]) |}
                _ eq_refl Hall) as (cur' & Hloop & Happs & Hrows').
    exists cur'. split; [exact Hloop|]. split; [done|].
    rewrite Hrows', <- app_assoc. reflexivity.
Qed.

(** C5, counterexample.  Two apps are open and the clock advances by
    one second per reading: the handler leaves both entries in the dict
    and closes the two sessions at two different times. *)
Lemma exit_keeps_dict_and_reads_clock_per_app :
  exists st' row1 row2,
    _exit (fun i => at_second (500 + Z.of_nat i))
      {| _app_started_time :=
           [("firefox", at_second 400); ("code", at_second 450)]%string;
         cur := fresh_database |} = Ok st' /\
    _app_started_time st'
    = [("firefox", at_second 400); ("code", at_second 450)]%string /\
    _app_started_time st' <> dict.empty /\
    time_tracking (cur st') = Some [row1; row2] /\
    end_time row1 = encode_time (at_second 500) /\
    end_time row2 = encode_time (at_second 501) /\
    end_time row1 <> end_time row2.
Proof.
  do 3 eexists.
  split; [vm_compute; reflexivity|].
  split; [reflexivity|].
  split; [discriminate|].
  split; [reflexivity|].
  split; [reflexivity|].
  split; [reflexivity | discriminate].
Qed.

(** C5, amended.  When every app of the dict is in the apps table, the
    handler succeeds and appends exactly one session row per item of
    the dict, in the order of the dict: the row of the i-th item [(app,
    start)] has the id of [app], starts at [start] and ends at the i-th
    reading of the clock.  The dict itself is left as it was. *)
Theorem exit_flushes_every_open_app (clock : nat -> datetime) (st : State)
    (registered : list AppsRow) (rows : list TimeTrackingRow) :
  apps (cur st) = Some registered ->
  time_tracking (cur st) = Some rows ->
  Forall (fun app => app ∈ name <$> registered)
    (dict.keys (_app_started_time st)) ->
  exists st' new,
    _exit clock st = Ok st' /\
    _app_started_time st' = _app_started_time st /\
    apps (cur st') = apps (cur st) /\
    time_tracking (cur st') = Some (rows ++ new) /\
    length new = length (dict.items (_app_started_time st)) /\
    forall i app start,
      dict.items (_app_started_time st) !! i = Some (app, start) ->
      exists id,
        name_id_dict registered !! app = Some id /\
        new !! i = Some {| app_id := id;
                           start_time := encode_time start;
                           end_time := encode_time (clock i);
                           seconds :=
                             timedelta.seconds
                               (datetime_sub (clock i) start) |}.
Proof.
  intros Happs Hrows Hkeys.
  assert (Hall : Forall (fun item => is_Some (name_id_dict registered !! item.1))
                   (dict.items (_app_started_time st))).
  { unfold dict.keys, dict.items in *. apply Forall_fmap in Hkeys.
    eapply Forall_impl; [exact Hkeys|].
    intros item Hin. by apply name_id_dict_is_Some. }
  destruct (_exit_loop_rows _ _ clock (cur st) rows Hrows Hall)
    as (cur' & Hloop & Happs' & Hrows').
  unfold _exit, get_app_name_id_mapping. rewrite Happs. simpl.
  rewrite Hloop. simpl.
  eexists; eexists. split; [reflexivity|]. simpl.
  split; [reflexivity|]. split; [congruence|]. split; [exact Hrows'|].
  split; [by rewrite length_imap|].
  intros i app start Hi. rewrite list_lookup_imap, Hi. simpl.
  rewrite Forall_forall in Hall.
  destruct (Hall (app, start)) as [id Hid].
  { apply list_elem_of_lookup. eauto. }
  simpl in Hid. exists id. by rewrite Hid.
Qed.

(** The scenario of the specification: "firefox" open since 400 s,
    "code" not running, the handler run at 500 s. *)
Example exit_scenario :
  _exit (fun _ => at_second 500) (open_since "firefox" (at_second 400))
  = Ok {| _app_started_time := [("firefox", at_second 400)]%string;
          cur := {| apps := apps fresh_database;
                    time_tracking :=
                      Some [ {| app_id := 2;
                                start_time := encode_time (at_second 400);
                                end_time := encode_time (at_second 500);
                                seconds := 100 |} ] |} |}.
Proof. vm_compute. reflexivity. Qed.

Lemma exit_flushes_every_open_app_witness :
  exists st' new,
    _exit (fun i => at_second (500 + Z.of_nat i))
      {| _app_started_time :=
           [("firefox", at_second 400); ("code", at_second 450)]%string;
         cur := fresh_database |} = Ok st' /\
    _app_started_time st'
    = [("firefox", at_second 400); ("code", at_second 450)]%string /\
    apps (cur st') = apps fresh_database /\
    time_tracking (cur st') = Some ([] ++ new) /\
    length new = 2%nat /\
    forall i app start,
      [("firefox", at_second 400); ("code", at_second 450)]%string !! i
      = Some (app, start) ->
      exists id,
        fresh_mapping !! app = Some id /\
        new !! i = Some {| app_id := id;
                           start_time := encode_time start;
                           end_time := encode_time (at_second (500 + Z.of_nat i));
                           seconds :=
                             timedelta.seconds
                               (datetime_sub (at_second (500 + Z.of_nat i))
                                  start) |}.
Proof.
  apply (exit_flushes_every_open_app
           (fun i => at_second (500 + Z.of_nat i))
           {| _app_started_time :=
                [("firefox", at_second 400); ("code", at_second 450)]%string;
              cur := fresh_database |}
           (default [] (apps fresh_database)) []);
    [reflexivity | reflexivity |].
  apply (bool_decide_unpack _). vm_compute. exact I.
Defined.

(** * A run, one app at a time *)

Section Projection.
Variables (m : gmap string Z) (app : string) (id : Z).
Hypothesis app_id_of : m !! app = Some id.
Hypothesis id_of_app_only : forall app', m !! app' = Some id -> app' = app.

(** One step, seen from [app]. *)
Lemma observe_projection o st rows :
  is_Some (m !! obs_app o) ->
  time_tracking (cur st) = Some rows ->
  dict.wf (_app_started_time st) ->
  exists st' new,
    observe m (obs_app o) (obs_running o) (obs_now o) st = Ok st' /\
    time_tracking (cur st') = Some (rows ++ new) /\
    apps (cur st') = apps (cur st) /\
    dict.wf (_app_started_time st') /\
    filter (fun row => app_id row = id) new
    = closed_sessions id (dict.get (_app_started_time st) app)
        (observations_of app [o]) /\
    dict.get (_app_started_time st') app
    = still_open (dict.get (_app_started_time st) app)
        (observations_of app [o]).
Proof.
  intros Hsome Hrows Hwf. destruct o as [a running now]; simpl in *.
  destruct (observe_total m a running now st Hsome) as [st' Hobs]; [eauto|].
  exists st'.
  unfold observations_of. rewrite filter_cons, filter_nil. simpl.
  destruct (observe_inv _ _ _ _ _ _ Hobs)
    as [-> | [(-> & Hget & ->) | (-> & start & ida & rows0 & Hget & Hida & Hrows0 & ->)]].
  - (* nothing moved *)
    exists []. rewrite app_nil_r. repeat (split; [done|]).
    rewrite filter_nil.
    destruct (decide (a = app)) as [->|Hne]; simpl; [|done].
    destruct running, (dict.get (_app_started_time st) app) as [start|] eqn:Hget;
      simpl; try done.
    + unfold observe in Hobs. rewrite Hget in Hobs.
      injection Hobs as Hst. exfalso.
      assert (Hbad : dict.get (_app_started_time st) app = Some now)
        by (rewrite <- Hst; simpl; apply dict_get_set_eq).
      congruence.
    + rewrite (observe_stopped _ _ _ _ _ _ _ Hget app_id_of Hrows) in Hobs.
      injection Hobs as Hst. exfalso.
      assert (Hbad : dict.get (_app_started_time st) app = None)
        by (rewrite <- Hst; simpl; by apply dict_get_remove_eq).
      congruence.
  - (* just started *)
    exists []. rewrite app_nil_r. simpl.
    repeat (split; [done|]). split; [by apply dict_wf_set|].
    rewrite filter_nil.
    destruct (decide (a = app)) as [->|Hne]; simpl.
    + rewrite Hget. simpl. by rewrite dict_get_set_eq.
    + by rewrite dict_get_set_ne.
  - (* stopped *)
    rewrite Hrows in Hrows0. injection Hrows0 as <-.
    exists [session_row ida start now]. simpl.
    repeat (split; [done|]). split; [by apply dict_wf_remove|].
    rewrite filter_cons, filter_nil. simpl.
    destruct (decide (a = app)) as [->|Hne]; simpl.
    + rewrite Hget. rewrite app_id_of in Hida. injection Hida as <-.
      rewrite decide_True by done. by rewrite dict_get_remove_eq.
    + rewrite decide_False; [by rewrite dict_get_remove_ne|].
      intros ->. by apply Hne, id_of_app_only.
Qed.

Lemma closed_sessions_app obs1 : forall started obs2,
  closed_sessions id started (obs1 ++ obs2)
  = closed_sessions id started obs1
    ++ closed_sessions id (still_open started obs1) obs2.
Proof.
  induction obs1 as [|[[] now] obs1 IH]; intros started obs2; simpl.
  - done.
  - apply IH.
  - destruct started; simpl; by rewrite IH.
Qed.

Lemma still_open_app obs1 : forall started obs2,
  still_open started (obs1 ++ obs2)
  = still_open (still_open started obs1) obs2.
Proof.
  induction obs1 as [|[[] now] obs1 IH]; intros started obs2; simpl;
    [done | apply IH | apply IH].
Qed.

(** A run of the main loop, seen from [app]: among the rows it
    appends, those of [app] are the sessions its own observations
    call for. *)
Lemma run_projection trace : forall st rows,
  Forall (fun o => is_Some (m !! obs_app o)) trace ->
  time_tracking (cur st) = Some rows ->
  dict.wf (_app_started_time st) ->
  exists st' new,
    run m trace st = Ok st' /\
    time_tracking (cur st') = Some (rows ++ new) /\
    apps (cur st') = apps (cur st) /\
    dict.wf (_app_started_time st') /\
    filter (fun row => app_id row = id) new
    = closed_sessions id (dict.get (_app_started_time st) app)
        (observations_of app trace) /\
    dict.get (_app_started_time st') app
    = still_open (dict.get (_app_started_time st) app)
        (observations_of app trace).
Proof.
  induction trace as [|o trace IH]; intros st rows Hall Hrows Hwf.
  - exists st, []. simpl. by rewrite app_nil_r.
  - apply Forall_cons in Hall as [Ho Hall].
    destruct (observe_projection o st rows Ho Hrows Hwf)
      as (st1 & new1 & Hobs & Hrows1 & Happs1 & Hwf1 & Hmine1 & Hopen1).
    destruct (IH st1 _ Hall Hrows1 Hwf1)
      as (st' & new2 & Hrun & Hrows' & Happs' & Hwf' & Hmine2 & Hopen2).
    exists st', (new1 ++ new2). simpl. rewrite Hobs. simpl.
    split; [done|]. split; [by rewrite Hrows', <- app_assoc|].
    split; [congruence|]. split; [done|].
    assert (Hsplit : observations_of app (o :: trace)
                     = observations_of app [o] ++ observations_of app trace).
    { unfold observations_of.
      change (o :: trace) with ([o] ++ trace).
      by rewrite filter_app, fmap_app. }
    rewrite Hsplit, filter_app, closed_sessions_app, still_open_app.
    by rewrite Hmine1, Hmine2, Hopen2, Hopen1.
Qed.

End Projection.

(** * Sessions of one app *)

(** A stretch of running observations closed by a not-running one
    yields the one session from the recorded start to the closing
    observation. *)
Lemma closed_sessions_stretch id start (ts : list datetime) tend :
  closed_sessions id (Some start) ((pair true <$> ts) ++ [(false, tend)])
  = [session_row id start tend].
Proof. induction ts as [|t ts IH]; simpl; [done | apply IH]. Qed.

Lemma still_open_stretch start (ts : list datetime) tend :
  still_open (Some start) ((pair true <$> ts) ++ [(false, tend)]) = None.
Proof. induction ts as [|t ts IH]; simpl; [done | apply IH]. Qed.

(** With the observation times strictly increasing from [lo] on and a
    recorded start not after [lo], every session ends after it starts
    and before the next one starts. *)
Lemma closed_sessions_sorted id obs : forall started lo,
  StronglySorted Z.lt (snd <$> obs) ->
  Forall (fun t => lo < t) (snd <$> obs) ->
  (forall start, started = Some start -> start <= lo) ->
  let sessions := closed_sessions id started obs in
  Forall (fun row => decode_time (start_time row) < decode_time (end_time row))
    sessions /\
  StronglySorted
    (fun row row' => decode_time (end_time row) < decode_time (start_time row'))
    sessions /\
  Forall (fun row => match started with
                     | Some start => start <= decode_time (start_time row)
                     | None => lo < decode_time (start_time row)
                     end) sessions.
Proof.
  induction obs as [|[running now] obs IH]; intros started lo Hsorted Hlo Hstart.
  - simpl. repeat split; constructor.
  - csimpl in Hsorted. csimpl in Hlo.
    apply StronglySorted_inv in Hsorted as [Hsorted Hnow].
    apply Forall_cons in Hlo as [Hlonow Hlo].
    destruct running; simpl.
    + destruct (IH (Some (default now started)) now Hsorted Hnow)
        as (Hpos & Hord & Hlow).
      { intros start [= <-]. destruct started as [start|]; simpl; [|lia].
        specialize (Hstart start eq_refl). lia. }
      repeat split; [done | done |].
      eapply Forall_impl; [exact Hlow|]. intros row Hrow; simpl in Hrow.
      destruct started; simpl in *; lia.
    + destruct (IH None now Hsorted Hnow) as (Hpos & Hord & Hlow); [done|].
      destruct started as [start|].
      * specialize (Hstart start eq_refl).
        repeat split.
        -- apply Forall_cons. split; [simpl; lia | done].
        -- apply SSorted_cons; [done|].
           eapply Forall_impl; [exact Hlow|]. intros row Hrow; simpl in *. lia.
        -- apply Forall_cons. split; [simpl; lia|].
           eapply Forall_impl; [exact Hlow|]. intros row Hrow; simpl in *. lia.
      * repeat split; [done | done |].
        eapply Forall_impl; [exact Hlow|]. intros row Hrow; simpl in *. lia.
Qed.

(** C1.  Conservation: an app with an id of its own and no recorded
    start is observed running at [t1], then at each of [ts], then not
    running at [tend], with observations of other apps anywhere in
    between.  The run goes through, and among the rows it appends
    exactly one is a session of the app: it starts at [t1] and ends at
    [tend]. *)
Theorem session_conservation (m : gmap string Z) (trace : list Observation)
    (st : State) (rows : list TimeTrackingRow) (app : string) (id : Z)
    (t1 : datetime) (ts : list datetime) (tend : datetime) :
  m !! app = Some id ->
  (forall app', m !! app' = Some id -> app' = app) ->
  Forall (fun o => is_Some (m !! obs_app o)) trace ->
  time_tracking (cur st) = Some rows ->
  dict.wf (_app_started_time st) ->
  dict.get (_app_started_time st) app = None ->
  filter (fun o => obs_app o = app) trace
  = (observed app true <$> t1 :: ts) ++ [observed app false tend] ->
  exists st' new,
    run m trace st = Ok st' /\
    time_tracking (cur st') = Some (rows ++ new) /\
    filter (fun row => app_id row = id) new
    = [ {| app_id := id;
           start_time := encode_time t1;
           end_time := encode_time tend;
           seconds := timedelta.seconds (datetime_sub tend t1) |} ] /\
    dict.get (_app_started_time st') app = None.
Proof.
  intros Hid Honly Hall Hrows Hwf Hget Hobs.
  destruct (run_projection m app id Hid Honly trace st rows Hall Hrows Hwf)
    as (st' & new & Hrun & Hrows' & _ & _ & Hmine & Hopen).
  exists st', new. split; [done|]. split; [done|].
  assert (Hview : observations_of app trace
                  = (true, t1) :: (pair true <$> ts) ++ [(false, tend)]).
  { unfold observations_of. rewrite Hobs, fmap_app. csimpl.
    by rewrite <- list_fmap_compose. }
  rewrite Hview, Hget in Hmine. rewrite Hview, Hget in Hopen.
  simpl in Hmine, Hopen.
  rewrite closed_sessions_stretch in Hmine.
  rewrite still_open_stretch in Hopen. done.
Qed.

Lemma session_conservation_witness :
  exists st' new,
    run fresh_mapping
      [ observed "code" true (at_second 0);
        observed "firefox" true (at_second 1);
        observed "code" true (at_second 60);
        observed "firefox" false (at_second 61);
        observed "code" true (at_second 120);
        observed "code" false (at_second 180) ]
      (initial_state fresh_database) = Ok st' /\
    time_tracking (cur st') = Some ([] ++ new) /\
    filter (fun row => app_id row = 1) new
    = [ {| app_id := 1;
           start_time := encode_time (at_second 0);
           end_time := encode_time (at_second 180);
           seconds :=
             timedelta.seconds (datetime_sub (at_second 180) (at_second 0)) |} ] /\
    dict.get (_app_started_time st') "code" = None.
Proof.
  apply (session_conservation fresh_mapping
           [ observed "code" true (at_second 0);
             observed "firefox" true (at_second 1);
             observed "code" true (at_second 60);
             observed "firefox" false (at_second 61);
             observed "code" true (at_second 120);
             observed "code" false (at_second 180) ]
           (initial_state fresh_database) [] "code" 1
           (at_second 0) [at_second 60; at_second 120] (at_second 180)).
  - reflexivity.
  - intros app' Hid.
    apply (name_id_dict_inj (default [] (apps fresh_database)) app' "code" 1);
      [apply (bool_decide_unpack _); vm_compute; exact I | exact Hid
      | reflexivity].
  - apply (bool_decide_unpack _). vm_compute. exact I.
  - reflexivity.
  - apply NoDup_nil_2.
  - reflexivity.
  - reflexivity.
Defined.

Lemma observation_times app trace :
  snd <$> observations_of app trace
  = obs_now <$> filter (fun o => obs_app o = app) trace.
Proof. unfold observations_of. by rewrite <- list_fmap_compose. Qed.

(** C6.  No overlap: in a run where the observation times of an app
    are strictly increasing (and later than its recorded start, if it
    has one when the run begins), the sessions written for the app each
    end after they start, and each starts after the one before it
    started and not before the one before it ended.  Strictly
    increasing times over the whole trace give strictly increasing
    times for each app. *)
Theorem sessions_never_overlap (m : gmap string Z) (trace : list Observation)
    (st : State) (rows : list TimeTrackingRow) (app : string) (id : Z) :
  m !! app = Some id ->
  (forall app', m !! app' = Some id -> app' = app) ->
  Forall (fun o => is_Some (m !! obs_app o)) trace ->
  time_tracking (cur st) = Some rows ->
  dict.wf (_app_started_time st) ->
  StronglySorted Z.lt
    (option_list (dict.get (_app_started_time st) app)
     ++ (obs_now <$> filter (fun o => obs_app o = app) trace)) ->
  exists st' new,
    run m trace st = Ok st' /\
    time_tracking (cur st') = Some (rows ++ new) /\
    Forall (fun row =>
              decode_time (start_time row) < decode_time (end_time row))
      (filter (fun row => app_id row = id) new) /\
    StronglySorted
      (fun row row' =>
         decode_time (start_time row) < decode_time (start_time row') /\
         decode_time (end_time row) <= decode_time (start_time row'))
      (filter (fun row => app_id row = id) new).
Proof.
  intros Hid Honly Hall Hrows Hwf Htimes.
  destruct (run_projection m app id Hid Honly trace st rows Hall Hrows Hwf)
    as (st' & new & Hrun & Hrows' & _ & _ & Hmine & _).
  exists st', new. split; [done|]. split; [done|].
  rewrite Hmine. rewrite <- observation_times in Htimes.
  set (started := dict.get (_app_started_time st) app) in *.
  set (obs := observations_of app trace) in *.
  assert (Hlo : exists lo,
             StronglySorted Z.lt (snd <$> obs) /\
             Forall (fun t => lo < t) (snd <$> obs) /\
             forall start, started = Some start -> start <= lo).
  { destruct started as [start|]; simpl in Htimes.
    - apply StronglySorted_inv in Htimes as [Hsorted Hfrom].
      exists start. repeat split; [done | done |].
      intros ? [= <-]; lia.
    - destruct (snd <$> obs) as [|t times] eqn:Hobs.
      + exists 0. repeat split; [constructor | constructor | done].
      + exists (t - 1). split; [done|]. split; [|done].
        apply StronglySorted_inv in Htimes as [_ Hfrom].
        apply Forall_cons. split; [lia|].
        eapply Forall_impl; [exact Hfrom|]. intros; simpl in *; lia. }
  destruct Hlo as (lo & Hsorted & Hfrom & Hstart).
  destruct (closed_sessions_sorted id obs started lo Hsorted Hfrom Hstart)
    as (Hpos & Hord & _).
  split; [exact Hpos|].
  clear -Hpos Hord.
  induction Hord as [|row sessions Hord IH Hrow]; [constructor|].
  apply Forall_cons in Hpos as [Hpos1 Hpos].
  apply SSorted_cons; [by apply IH|].
  eapply Forall_impl; [exact Hrow|]. intros row' Hlt; simpl in *. lia.
Qed.

Lemma sessions_never_overlap_witness :
  exists st' new,
    run fresh_mapping
      [ observed "code" true (at_second 0);
        observed "firefox" true (at_second 0);
        observed "code" false (at_second 60);
        observed "firefox" true (at_second 60);
        observed "code" true (at_second 120);
        observed "firefox" false (at_second 120);
        observed "code" false (at_second 180) ]
      (initial_state fresh_database) = Ok st' /\
    time_tracking (cur st') = Some ([] ++ new) /\
    Forall (fun row =>
              decode_time (start_time row) < decode_time (end_time row))
      (filter (fun row => app_id row = 1) new) /\
    StronglySorted
      (fun row row' =>
         decode_time (start_time row) < decode_time (start_time row') /\
         decode_time (end_time row) <= decode_time (start_time row'))
      (filter (fun row => app_id row = 1) new).
Proof.
  apply (sessions_never_overlap fresh_mapping
           [ observed "code" true (at_second 0);
             observed "firefox" true (at_second 0);
             observed "code" false (at_second 60);
             observed "firefox" true (at_second 60);
             observed "code" true (at_second 120);
             observed "firefox" false (at_second 120);
             observed "code" false (at_second 180) ]
           (initial_state fresh_database) [] "code" 1).
  - reflexivity.
  - intros app' Hid.
    apply (name_id_dict_inj (default [] (apps fresh_database)) app' "code" 1);
      [apply (bool_decide_unpack _); vm_compute; exact I | exact Hid
      | reflexivity].
  - apply (bool_decide_unpack _). vm_compute. exact I.
  - reflexivity.
  - apply NoDup_nil_2.
  - vm_compute. repeat constructor.
Defined.

(** * The report query *)

Lemma filter_none {A} (P : A -> Prop) `{forall x, Decision (P x)} (l : list A) :
  (forall x, x ∈ l -> ~ P x) -> filter P l = [].
Proof.
  induction l as [|x l IH]; intros Hnone; [done|].
  rewrite filter_cons_False; [apply IH | apply Hnone; by left].
  intros y Hy. apply Hnone. by right.
Qed.

(** In a list without two elements of the same key, the elements of
    the key of [x] are [x] alone. *)
Lemma filter_unique_key {A B} `{EqDecision B} (f : A -> B) (l : list A) x :
  NoDup (f <$> l) -> x ∈ l -> filter (fun y => f y = f x) l = [x].
Proof.
  induction l as [|y l IH]; csimpl; intros Hnd Hin.
  - by apply elem_of_nil in Hin.
  - apply NoDup_cons in Hnd as [Hy Hnd].
    apply elem_of_cons in Hin as [->|Hin].
    + rewrite filter_cons_True by done. f_equal.
      apply filter_none. intros z Hz Heq. apply Hy.
      rewrite <- Heq. by apply list_elem_of_fmap_2.
    + rewrite filter_cons_False; [by apply IH|].
      intros Heq. apply Hy. rewrite Heq. by apply list_elem_of_fmap_2.
Qed.

Lemma filter_comm {A} (P Q : A -> Prop)
    `{forall x, Decision (P x)} `{forall x, Decision (Q x)} (l : list A) :
  filter P (filter Q l) = filter Q (filter P l).
Proof.
  induction l as [|x l IH]; [done|].
  rewrite !filter_cons.
  destruct (decide (P x)), (decide (Q x));
    rewrite ?filter_cons_True, ?filter_cons_False by done; by rewrite IH.
Qed.

(** The joined rows of one session under one name. *)
Lemma join_session_under_name session (matching : list AppsRow) app :
  seconds ∘ fst
    <$> filter (fun jr => jr.2 = app)
          (matching ≫= fun entry => [(session, name entry)])
  = (fun _ => seconds session) <$> filter (fun entry => name entry = app) matching.
Proof.
  induction matching as [|entry matching IH]; [done|].
  rewrite bind_cons, filter_app, fmap_app, IH. simpl.
  rewrite !filter_cons, filter_nil. simpl.
  by destruct (decide (name entry = app)).
Qed.

(** With unique names, the joined rows under the name of a registry
    entry are the sessions of its ROWID. *)
Lemma join_under_name sessions registered entry :
  NoDup (name <$> registered) -> entry ∈ registered ->
  seconds ∘ fst
    <$> filter (fun jr => jr.2 = name entry) (join_on_app_id sessions registered)
  = seconds <$> filter (fun session => app_id session = ROWID entry) sessions.
Proof.
  intros Hnd Hin. unfold join_on_app_id.
  induction sessions as [|session sessions IH]; [done|].
  rewrite bind_cons, filter_app, fmap_app, IH, join_session_under_name.
  rewrite filter_comm, (filter_unique_key name) by done.
  rewrite !filter_cons, filter_nil.
  destruct (decide (ROWID entry = app_id session)) as [Heq|Hne].
  - by rewrite decide_True by done.
  - by rewrite decide_False by done.
Qed.

Lemma elem_of_join sessions registered session app :
  (session, app) ∈ join_on_app_id sessions registered <->
  session ∈ sessions /\
  exists entry,
    entry ∈ registered /\ ROWID entry = app_id session /\ name entry = app.
Proof.
  unfold join_on_app_id. rewrite list_elem_of_bind. split.
  - intros (session' & Hjr & Hin).
    apply list_elem_of_bind in Hjr as (entry & Hjr & Hentry).
    apply list_elem_of_singleton in Hjr. injection Hjr as -> ->.
    apply list_elem_of_filter in Hentry as [? ?].
    split; [done|]. by exists entry.
  - intros (Hin & entry & Hentry & Hid & <-).
    exists session. split; [|done].
    apply list_elem_of_bind. exists entry.
    split; [by apply list_elem_of_singleton|].
    by apply list_elem_of_filter.
Qed.

(** C7.  Aggregation: over a registry with unique names, the report
    query returns one pair per name; a pair [(app, total)] is returned
    exactly when [app] is the name of a registry entry that has at
    least one session row, and [total] is then the sum of the seconds
    of the session rows of that entry.  An entity without a session
    row has no pair. *)
Theorem app_time_sum_by_entity (cur : Database) (registered : list AppsRow)
    (sessions : list TimeTrackingRow) :
  apps cur = Some registered ->
  time_tracking cur = Some sessions ->
  NoDup (name <$> registered) ->
  exists totals,
    get_app_time_sum cur = Ok totals /\
    NoDup (fst <$> totals) /\
    forall app total,
      (app, total) ∈ totals <->
      exists entry,
        entry ∈ registered /\ name entry = app /\
        filter (fun session => app_id session = ROWID entry) sessions <> [] /\
        total
        = sum (seconds
                 <$> filter (fun session => app_id session = ROWID entry)
                       sessions).
Proof.
  intros Happs Hsessions Hnd.
  unfold get_app_time_sum, join_apps_table. rewrite Happs, Hsessions. simpl.
  eexists. split; [reflexivity|].
  set (joined := join_on_app_id sessions registered).
  split.
  - match goal with
    | |- NoDup (fst <$> (?f <$> ?groups)) =>
        replace (fst <$> (f <$> groups)) with groups;
        [apply NoDup_remove_dups|]
    end.
    generalize (remove_dups (joined.*2)).
    intros groups; induction groups; csimpl; [done | by f_equal].
  - intros app total. rewrite list_elem_of_fmap. split.
    + intros (group & [= -> ->] & Hgroup).
      apply elem_of_remove_dups, list_elem_of_fmap in Hgroup
        as ([session app] & Happ & Hjr).
      simpl in Happ; subst app.
      apply elem_of_join in Hjr as (Hin & entry & Hentry & Hid & Hname).
      exists entry. split; [done|]. split; [done|]. split.
      * intros Hnone.
        exact (filter_nil_not_elem_of _ _ session Hnone (eq_sym Hid) Hin).
      * rewrite <- Hname. f_equal. by apply join_under_name.
    + intros (entry & Hentry & <- & Hsome & ->).
      exists (name entry). split.
      * f_equal. f_equal. symmetry. by apply join_under_name.
      * apply elem_of_remove_dups.
        destruct (filter _ sessions) as [|session mine] eqn:Hmine; [done|].
        assert (Hin : session ∈ filter
                        (fun session => app_id session = ROWID entry) sessions)
          by (rewrite Hmine; by left).
        apply list_elem_of_filter in Hin as [Hid Hin].
        apply list_elem_of_fmap. exists (session, name entry).
        split; [done|]. apply elem_of_join. split; [done|].
        by exists entry.
Qed.

Lemma app_time_sum_by_entity_witness :
  exists totals,
    get_app_time_sum
      {| apps := apps fresh_database;
         time_tracking :=
           Some [ {| app_id := 1; start_time := encode_time (at_second 0);
                     end_time := encode_time (at_second 100); seconds := 100 |};
                  {| app_id := 2; start_time := encode_time (at_second 10);
                     end_time := encode_time (at_second 40); seconds := 30 |};
                  {| app_id := 1; start_time := encode_time (at_second 200);
                     end_time := encode_time (at_second 250); seconds := 50 |} ]
      |} = Ok totals /\
    NoDup (fst <$> totals) /\
    forall app total,
      (app, total) ∈ totals <->
      exists entry,
        entry ∈ default [] (apps fresh_database) /\ name entry = app /\
        filter (fun session => app_id session = ROWID entry)
          [ {| app_id := 1; start_time := encode_time (at_second 0);
               end_time := encode_time (at_second 100); seconds := 100 |};
            {| app_id := 2; start_time := encode_time (at_second 10);
               end_time := encode_time (at_second 40); seconds := 30 |};
            {| app_id := 1; start_time := encode_time (at_second 200);
               end_time := encode_time (at_second 250); seconds := 50 |} ]
        <> [] /\
        total
        = sum (seconds
                 <$> filter (fun session => app_id session = ROWID entry)
                       [ {| app_id := 1; start_time := encode_time (at_second 0);
                            end_time := encode_time (at_second 100);
                            seconds := 100 |};
                         {| app_id := 2; start_time := encode_time (at_second 10);
                            end_time := encode_time (at_second 40);
                            seconds := 30 |};
                         {| app_id := 1;
                            start_time := encode_time (at_second 200);
                            end_time := encode_time (at_second 250);
                            seconds := 50 |} ]).
Proof.
  apply (app_time_sum_by_entity _ (default [] (apps fresh_database)));
    [reflexivity | reflexivity |].
  apply (bool_decide_unpack _). vm_compute. exact I.
Defined.

(** The scenario of the specification: sessions of 100 s and 50 s for
    "code" and of 30 s for "firefox" (the order of the groups is that of
    the model, SQLite promises none). *)
Example app_time_sum_scenario :
  get_app_time_sum
    {| apps := apps fresh_database;
       time_tracking :=
         Some [ {| app_id := 1; start_time := encode_time (at_second 0);
                   end_time := encode_time (at_second 100); seconds := 100 |};
                {| app_id := 2; start_time := encode_time (at_second 10);
                   end_time := encode_time (at_second 40); seconds := 30 |};
                {| app_id := 1; start_time := encode_time (at_second 200);
                   end_time := encode_time (at_second 250); seconds := 50 |} ]
    |} = Ok [("firefox", 30); ("code", 150)]%string.
Proof. vm_compute. reflexivity. Qed.

(** * The apps table *)

Lemma filter_name_nil (rows : list AppsRow) app :
  filter (fun row => name row = app) rows = [] <-> app ∉ name <$> rows.
Proof.
  split.
  - intros Hnil Hin. apply list_elem_of_fmap in Hin as (row & -> & Hin).
    by apply (filter_nil_not_elem_of _ _ row Hnil).
  - intros Hnotin. apply filter_none. intros row Hin <-.
    apply Hnotin. by apply list_elem_of_fmap_2.
Qed.

Lemma populate_app_present cur registered app :
  apps cur = Some registered -> app ∈ name <$> registered ->
  populate_app_if_needed cur app = Ok cur.
Proof.
  intros Happs Hin. unfold populate_app_if_needed. rewrite Happs.
  destruct (filter _ registered) eqn:Hfilter; [|done].
  by apply filter_name_nil in Hfilter.
Qed.

Lemma populate_app_absent cur registered app :
  apps cur = Some registered -> app ∉ name <$> registered ->
  populate_app_if_needed cur app
  = Ok {| apps := Some (registered
                        ++ [ {| ROWID := next_rowid registered;
                                name := app |} ]);
          time_tracking := time_tracking cur |}.
Proof.
  intros Happs Hnotin. unfold populate_app_if_needed. rewrite Happs.
  apply filter_name_nil in Hnotin as Hfilter. rewrite Hfilter.
  unfold insert. simpl. rewrite Happs. simpl.
  by rewrite bool_decide_eq_false_2.
Qed.

(** Populating appends the missing names, one row each, and touches
    nothing else. *)
Lemma populate_apps_appends tracked : forall cur registered,
  apps cur = Some registered ->
  NoDup (name <$> registered) ->
  exists cur' added,
    populate_apps tracked cur = Ok cur' /\
    apps cur' = Some (registered ++ added) /\
    time_tracking cur' = time_tracking cur /\
    NoDup (name <$> registered ++ added) /\
    Forall (fun app => app ∈ name <$> registered ++ added) tracked.
Proof.
  induction tracked as [|app tracked IH]; intros cur registered Happs Hnd.
  - exists cur, []. simpl. rewrite app_nil_r. repeat split; [done..|constructor].
  - simpl. destruct (decide (app ∈ name <$> registered)) as [Hin|Hnotin].
    + rewrite (populate_app_present _ _ _ Happs Hin). simpl.
      destruct (IH cur registered Happs Hnd)
        as (cur' & added & Hpop & Happs' & Htt & Hnd' & Hall).
      exists cur', added. repeat split; [done..|].
      apply Forall_cons. split; [|done].
      rewrite fmap_app, elem_of_app. by left.
    + rewrite (populate_app_absent _ _ _ Happs Hnotin). simpl.
      set (row := {| ROWID := next_rowid registered; name := app |}).
      destruct (IH {| apps := Some (registered ++ [row]);
                      time_tracking := time_tracking cur |}
                  (registered ++ [row]) eq_refl)
        as (cur' & added & Hpop & Happs' & Htt & Hnd' & Hall).
      { rewrite fmap_app. apply NoDup_app. split; [done|]. split.
        - intros x Hx Hx'. apply list_elem_of_singleton in Hx'. by subst.
        - apply NoDup_singleton. }
      rewrite <- app_assoc in Happs', Hnd', Hall.
      exists cur', (row :: added). repeat split; [done..|].
      apply Forall_cons. split; [|done].
      rewrite fmap_app, elem_of_app. right. by left.
Qed.

Lemma populate_apps_present tracked cur registered :
  apps cur = Some registered ->
  Forall (fun app => app ∈ name <$> registered) tracked ->
  populate_apps tracked cur = Ok cur.
Proof.
  intros Happs. induction tracked as [|app tracked IH]; intros Hall; [done|].
  apply Forall_cons in Hall as [Hin Hall]. simpl.
  rewrite (populate_app_present _ _ _ Happs Hin). simpl. by apply IH.
Qed.

Lemma observe_apps m app running now st st' :
  observe m app running now st = Ok st' -> apps (cur st') = apps (cur st).
Proof.
  intros Hobs.
  by destruct (observe_inv _ _ _ _ _ _ Hobs)
    as [-> | [(_ & _ & ->) | (_ & ? & ? & ? & _ & _ & _ & ->)]].
Qed.

Lemma run_apps m trace : forall st st',
  run m trace st = Ok st' -> apps (cur st') = apps (cur st).
Proof.
  induction trace as [|o trace IH]; simpl; intros st st' Hrun.
  - by injection Hrun as <-.
  - destruct (observe m _ _ _ st) as [st1|] eqn:Hobs; [|done]. simpl in Hrun.
    rewrite (IH _ _ Hrun). by apply observe_apps in Hobs.
Qed.

Lemma _exit_loop_apps m items : forall clock cur cur',
  _exit_loop m clock items cur = Ok cur' -> apps cur' = apps cur.
Proof.
  induction items as [|[app start] items IH]; simpl; intros clock cur cur' Hloop.
  - by injection Hloop as <-.
  - unfold getitem in Hloop. destruct (m !! app) as [id|]; [|done].
    unfold insert in Hloop. simpl in Hloop.
    destruct (time_tracking cur) as [rows|]; [|done]. simpl in Hloop.
    by rewrite (IH _ _ _ Hloop).
Qed.

Lemma _exit_apps clock st st' :
  _exit clock st = Ok st' -> apps (cur st') = apps (cur st).
Proof.
  unfold _exit. intros Hexit.
  destruct (get_app_name_id_mapping (cur st)) as [m|]; [|done].
  simpl in Hexit.
  destruct (_exit_loop m clock _ (cur st)) as [cur'|] eqn:Hloop; [|done].
  injection Hexit as <-. simpl. by apply _exit_loop_apps in Hloop.
Qed.

(** C8.  Registry idempotence.  For a name already in the apps table
    the populate step changes nothing and the id mapping gives the
    ROWID of the existing row.  Populating keeps every row already
    there, adds rows only at the end, keeps the names unique and leaves
    every tracked app registered; populating again changes nothing.
    Neither the main loop nor the signal handler touches the apps
    table; [--clear-db] drops it. *)
Theorem registry_idempotent :
  (forall cur registered entry,
     apps cur = Some registered ->
     NoDup (name <$> registered) ->
     entry ∈ registered ->
     populate_app_if_needed cur (name entry) = Ok cur /\
     exists m,
       get_app_name_id_mapping cur = Ok m /\
       m !! name entry = Some (ROWID entry)) /\
  (forall cur registered,
     apps cur = Some registered ->
     NoDup (name <$> registered) ->
     exists cur' added,
       populate_apps_table_if_needed cur = Ok cur' /\
       apps cur' = Some (registered ++ added) /\
       NoDup (name <$> registered ++ added) /\
       Forall (fun app => app ∈ name <$> registered ++ added) TRACKED_APPS /\
       populate_apps_table_if_needed cur' = Ok cur') /\
  (forall m trace st st',
     run m trace st = Ok st' -> apps (cur st') = apps (cur st)) /\
  (forall clock st st',
     _exit clock st = Ok st' -> apps (cur st') = apps (cur st)) /\
  (forall cur, apps (clear_db cur) = None).
Proof.
  split; [|split; [|split; [|split]]].
  - intros cur registered entry Happs Hnd Hin. split.
    + apply (populate_app_present _ registered); [done|].
      by apply list_elem_of_fmap_2.
    + exists (name_id_dict registered).
      unfold get_app_name_id_mapping. rewrite Happs.
      split; [done|]. by apply name_id_dict_lookup.
  - intros cur registered Happs Hnd.
    destruct (populate_apps_appends TRACKED_APPS cur registered Happs Hnd)
      as (cur' & added & Hpop & Happs' & _ & Hnd' & Hall).
    exists cur', added. repeat split; [done..|].
    by apply (populate_apps_present _ _ (registered ++ added)).
  - apply run_apps.
  - apply _exit_apps.
  - done.
Qed.

Lemma registry_idempotent_witness :
  (populate_app_if_needed fresh_database "firefox" = Ok fresh_database /\
   exists m,
     get_app_name_id_mapping fresh_database = Ok m /\
     m !! "firefox"%string = Some 2) /\
  (exists cur' added,
     populate_apps_table_if_needed
       {| apps := Some [ {| ROWID := 4; name := "firefox" |} ];
          time_tracking := None |} = Ok cur' /\
     apps cur' = Some ([ {| ROWID := 4; name := "firefox" |} ] ++ added) /\
     NoDup (name <$> [ {| ROWID := 4; name := "firefox" |} ] ++ added) /\
     Forall (fun app =>
               app ∈ name <$> [ {| ROWID := 4; name := "firefox" |} ] ++ added)
       TRACKED_APPS /\
     populate_apps_table_if_needed cur' = Ok cur') /\
  apps (cur (open_since "code" 0)) = apps fresh_database /\
  apps (cur (open_since "code" 0)) = apps fresh_database.
Proof.
  destruct registry_idempotent as (Hensure & Hpopulate & Hrun & Hexit & _).
  split; [|split; [|split]].
  - apply (Hensure fresh_database (default [] (apps fresh_database))
             {| ROWID := 2; name := "firefox" |}); [reflexivity | |].
    + apply (bool_decide_unpack _). vm_compute. exact I.
    + apply (bool_decide_unpack _). vm_compute. exact I.
  - apply (Hpopulate
             {| apps := Some [ {| ROWID := 4; name := "firefox" |} ];
                time_tracking := None |}); [reflexivity|].
    apply NoDup_singleton.
  - apply (Hrun fresh_mapping [observed "code" true 0]
             (initial_state fresh_database)). reflexivity.
  - apply (Hexit (fun _ => at_second 9) (open_since "code" 0)
             {| _app_started_time := [("code", 0)]%string;
                cur := {| apps := apps fresh_database;
                          time_tracking :=
                            Some [session_row 1 0 (at_second 9)] |} |}).
    reflexivity.
Defined.

(** * What start-up hands to the main loop *)

Lemma foldr_max_bounds (r : Z) (rs : list Z) :
  r <= foldr Z.max r rs /\ Forall (fun x => x <= foldr Z.max r rs) rs.
Proof.
  induction rs as [|x rs [IHr IHrs]]; simpl; [split; [lia | constructor]|].
  split; [lia|]. apply Forall_cons. split; [lia|].
  eapply Forall_impl; [exact IHrs|]. intros; simpl in *; lia.
Qed.

Lemma next_rowid_fresh rows row :
  row ∈ rows -> ROWID row < next_rowid rows.
Proof.
  intros Hin. apply (list_elem_of_fmap_2 ROWID) in Hin.
  unfold next_rowid. destruct (ROWID <$> rows) as [|r rs].
  - by apply elem_of_nil in Hin.
  - destruct (foldr_max_bounds r rs) as [Hr Hrs].
    apply elem_of_cons in Hin as [->|Hin]; [lia|].
    rewrite Forall_forall in Hrs. specialize (Hrs _ Hin). simpl in Hrs. lia.
Qed.

Lemma populate_apps_rowids tracked : forall cur registered cur' registered',
  apps cur = Some registered ->
  NoDup (ROWID <$> registered) ->
  populate_apps tracked cur = Ok cur' ->
  apps cur' = Some registered' ->
  NoDup (ROWID <$> registered').
Proof.
  induction tracked as [|app tracked IH];
    intros cur registered cur' registered' Happs Hnd Hpop Happs'.
  - injection Hpop as <-. congruence.
  - simpl in Hpop.
    destruct (decide (app ∈ name <$> registered)) as [Hin|Hnotin].
    + rewrite (populate_app_present _ _ _ Happs Hin) in Hpop.
      by apply (IH cur registered cur').
    + rewrite (populate_app_absent _ _ _ Happs Hnotin) in Hpop.
      simpl in Hpop. eapply IH; [| |exact Hpop|exact Happs']; [done|].
      rewrite fmap_app. apply NoDup_app. split; [done|]. split.
      * intros x Hx Hx'. apply list_elem_of_singleton in Hx'. subst x.
        apply list_elem_of_fmap in Hx as (row & Heq & Hrow).
        apply next_rowid_fresh in Hrow. simpl in Heq. lia.
      * apply NoDup_singleton.
Qed.

(** Start-up succeeds on every file whose apps table, if there is one,
    has unique names and ROWIDs (SQLite keeps both).  It leaves a
    session table, an id for every tracked app, and no id shared by two
    names: what the statements about the main loop assume. *)
Lemma startup_ready cur0 :
  (forall registered, apps cur0 = Some registered ->
     NoDup (name <$> registered) /\ NoDup (ROWID <$> registered)) ->
  exists cur m,
    startup cur0 = Ok (cur, m) /\
    is_Some (time_tracking cur) /\
    get_app_name_id_mapping cur = Ok m /\
    Forall (fun app => is_Some (m !! app)) TRACKED_APPS /\
    forall app app' id, m !! app = Some id -> m !! app' = Some id -> app = app'.
Proof.
  intros Hwf. unfold startup.
  set (cur1 := create_table_if_not_exists apps_table cur0).
  set (cur2 := create_table_if_not_exists time_tracking_table cur1).
  assert (Happs2 : exists registered,
             apps cur2 = Some registered /\
             NoDup (name <$> registered) /\ NoDup (ROWID <$> registered)).
  { unfold cur2, cur1, create_table_if_not_exists. simpl.
    destruct (apps cur0) as [registered|] eqn:Happs.
    - exists registered. destruct (Hwf _ eq_refl) as [? ?].
      destruct (time_tracking cur0); simpl; by rewrite ?Happs.
    - exists []. simpl. repeat split; try constructor.
      by destruct (time_tracking cur0). }
  assert (Htt2 : is_Some (time_tracking cur2)).
  { unfold cur2, create_table_if_not_exists. simpl.
    destruct (time_tracking cur1) eqn:Htt; simpl; [rewrite Htt|]; eauto. }
  destruct Happs2 as (registered & Happs2 & Hnames & Hrowids).
  destruct (populate_apps_appends TRACKED_APPS cur2 registered Happs2 Hnames)
    as (cur3 & added & Hpop & Happs3 & Htt3 & Hnames3 & Hall).
  unfold populate_apps_table_if_needed. rewrite Hpop. simpl.
  assert (Hsame : populate_time_tracking_table_if_needed cur3 = cur3).
  { unfold populate_time_tracking_table_if_needed, table_exists. simpl.
    rewrite Htt3. by destruct Htt2 as [rows ->]. }
  rewrite Hsame. unfold get_app_name_id_mapping. rewrite Happs3. simpl.
  eexists; eexists. split; [reflexivity|].
  split; [by rewrite Htt3|]. split; [by rewrite Happs3|]. split.
  - eapply Forall_impl; [exact Hall|].
    intros app Hin. by apply name_id_dict_is_Some.
  - intros app app' id. apply name_id_dict_inj.
    by apply (populate_apps_rowids TRACKED_APPS cur2 registered cur3).
Qed.

(** The dict only ever holds apps it held before or apps polled since:
    in the main loop, tracked apps, which start-up registered. *)
Lemma run_keys m trace : forall st st' app,
  run m trace st = Ok st' ->
  app ∈ dict.keys (_app_started_time st') ->
  app ∈ dict.keys (_app_started_time st) \/ app ∈ obs_app <$> trace.
Proof.
  induction trace as [|o trace IH]; simpl; intros st st' app Hrun Hin.
  - injection Hrun as <-. by left.
  - destruct (observe m _ _ _ st) as [st1|] eqn:Hobs; [|done]. simpl in Hrun.
    rewrite elem_of_cons.
    destruct (IH _ _ _ Hrun Hin) as [Hin1|Hlater]; [|by right; right].
    destruct (observe_inv _ _ _ _ _ _ Hobs)
      as [-> | [(_ & _ & ->) | (_ & ? & ? & ? & _ & _ & _ & ->)]];
      simpl in Hin1.
    + by left.
    + apply dict_keys_set in Hin1 as [->|Hin1]; [right; by left | by left].
    + left. by apply (dict_keys_remove_subseteq _ (obs_app o)).
Qed.

(** * The whole run: start-up, the loop, the handler *)

Lemma run_app m trace1 : forall trace2 st,
  run m (trace1 ++ trace2) st = run m trace1 st ≫= run m trace2.
Proof.
  induction trace1 as [|o trace1 IH]; intros trace2 st; simpl; [done|].
  destruct (observe m _ _ _ st) as [st1|]; simpl; [apply IH | done].
Qed.

(** Populating succeeds on any apps table, whatever it holds. *)
Lemma populate_apps_total tracked : forall cur registered,
  apps cur = Some registered ->
  exists cur' added,
    populate_apps tracked cur = Ok cur' /\
    apps cur' = Some (registered ++ added) /\
    time_tracking cur' = time_tracking cur /\
    Forall (fun app => app ∈ name <$> registered ++ added) tracked.
Proof.
  induction tracked as [|app tracked IH]; intros cur registered Happs.
  - exists cur, []. simpl. rewrite app_nil_r. repeat split; [done..|constructor].
  - simpl. destruct (decide (app ∈ name <$> registered)) as [Hin|Hnotin].
    + rewrite (populate_app_present _ _ _ Happs Hin). simpl.
      destruct (IH cur registered Happs)
        as (cur' & added & Hpop & Happs' & Htt & Hall).
      exists cur', added. repeat split; [done..|].
      apply Forall_cons. split; [|done].
      rewrite fmap_app, elem_of_app. by left.
    + rewrite (populate_app_absent _ _ _ Happs Hnotin). simpl.
      set (row := {| ROWID := next_rowid registered; name := app |}).
      destruct (IH {| apps := Some (registered ++ [row]);
                      time_tracking := time_tracking cur |}
                  (registered ++ [row]) eq_refl)
        as (cur' & added & Hpop & Happs' & Htt & Hall).
      rewrite <- app_assoc in Happs', Hall.
      exists cur', (row :: added). repeat split; [done..|].
      apply Forall_cons. split; [|done].
      rewrite fmap_app, elem_of_app. right. by left.
Qed.

(** Start-up succeeds on every file. *)
Lemma startup_total cur0 :
  exists cur registered,
    startup cur0 = Ok (cur, name_id_dict registered) /\
    apps cur = Some registered /\
    is_Some (time_tracking cur) /\
    Forall (fun app => app ∈ name <$> registered) TRACKED_APPS.
Proof.
  unfold startup.
  set (cur1 := create_table_if_not_exists apps_table cur0).
  set (cur2 := create_table_if_not_exists time_tracking_table cur1).
  assert (Happs2 : is_Some (apps cur2)).
  { unfold cur2, cur1, create_table_if_not_exists. simpl.
    destruct (apps cur0) eqn:Happs, (time_tracking cur0); simpl;
      rewrite ?Happs; eauto. }
  assert (Htt2 : is_Some (time_tracking cur2)).
  { unfold cur2, create_table_if_not_exists. simpl.
    destruct (time_tracking cur1) eqn:Htt; simpl; [rewrite Htt|]; eauto. }
  destruct Happs2 as [registered Happs2].
  destruct (populate_apps_total TRACKED_APPS cur2 registered Happs2)
    as (cur3 & added & Hpop & Happs3 & Htt3 & Hall).
  unfold populate_apps_table_if_needed. rewrite Hpop. simpl.
  assert (Hsame : populate_time_tracking_table_if_needed cur3 = cur3).
  { unfold populate_time_tracking_table_if_needed, table_exists. simpl.
    rewrite Htt3. by destruct Htt2 as [rows ->]. }
  rewrite Hsame. unfold get_app_name_id_mapping. rewrite Happs3. simpl.
  exists cur3, (registered ++ added).
  split; [done|]. split; [done|]. split; [by rewrite Htt3 | done].
Qed.

(** A run over apps that all have an id goes through; it keeps the
    session table in place, the apps table as it is and the keys of the
    dict distinct. *)
Lemma run_total m trace : forall st,
  Forall (fun o => is_Some (m !! obs_app o)) trace ->
  is_Some (time_tracking (cur st)) ->
  exists st',
    run m trace st = Ok st' /\
    is_Some (time_tracking (cur st')) /\
    apps (cur st') = apps (cur st).
Proof.
  induction trace as [|o trace IH]; intros st Hall Htt.
  - by exists st.
  - apply Forall_cons in Hall as [Ho Hall].
    destruct (observe_total m (obs_app o) (obs_running o) (obs_now o) st Ho Htt)
      as [st1 Hobs].
    assert (Htt1 : is_Some (time_tracking (cur st1))).
    { destruct Htt as [rows Hrows].
      destruct (observe_appends (fun _ => True) (fun _ _ _ => I)
                  _ _ _ _ _ _ _ Hobs Hrows) as (new & -> & _). eauto. }
    destruct (IH st1 Hall Htt1) as (st' & Hrun & Htt' & Happs').
    exists st'. simpl. rewrite Hobs. simpl.
    split; [done|]. split; [done|].
    rewrite Happs'. by apply observe_apps in Hobs.
Qed.

Lemma tick_trace_apps running clock :
  obs_app <$> tick_trace running clock = TRACKED_APPS.
Proof. reflexivity. Qed.

Lemma main_loop_total n m : forall running clock st,
  Forall (fun app => is_Some (m !! app)) TRACKED_APPS ->
  is_Some (time_tracking (cur st)) ->
  Forall (fun app => app ∈ TRACKED_APPS) (dict.keys (_app_started_time st)) ->
  exists st',
    main_loop n m running clock st = Ok st' /\
    is_Some (time_tracking (cur st')) /\
    apps (cur st') = apps (cur st) /\
    Forall (fun app => app ∈ TRACKED_APPS) (dict.keys (_app_started_time st')).
Proof.
  induction n as [|n IH]; intros running clock st Hids Htt Hkeys.
  - by exists st.
  - simpl. unfold tick.
    assert (Hall : Forall (fun o => is_Some (m !! obs_app o))
                     (tick_trace (running O) (clock O))).
    { apply Forall_forall. intros o Ho.
      rewrite Forall_forall in Hids. apply Hids.
      rewrite <- (tick_trace_apps (running O) (clock O)).
      by apply list_elem_of_fmap_2. }
    destruct (run_total m _ st Hall Htt) as (st1 & Hrun & Htt1 & Happs1).
    rewrite Hrun. simpl.
    assert (Hkeys1 : Forall (fun app => app ∈ TRACKED_APPS)
                       (dict.keys (_app_started_time st1))).
    { apply Forall_forall. intros app Hin.
      destruct (run_keys _ _ _ _ _ Hrun Hin) as [Hold|Hnew].
      - rewrite Forall_forall in Hkeys. by apply Hkeys.
      - by rewrite tick_trace_apps in Hnew. }
    destruct (IH (fun k => running (S k)) (fun k => clock (S k)) st1
                Hids Htt1 Hkeys1) as (st' & Hloop & Htt' & Happs' & Hkeys').
    exists st'. repeat split; [done | done | congruence | done].
Qed.

(** X1.  Nothing raises once the process is past line 149: on any file,
    start-up succeeds, any number of passes of the main loop succeed,
    and the signal handler run after them succeeds.  The apps table is
    the one start-up left and the dict holds tracked apps only. *)
Theorem tracking_never_raises (cur0 : Database) (n : nat)
    (running : nat -> nat -> bool) (clock : nat -> nat -> datetime)
    (exit_clock : nat -> datetime) :
  exists db m st st',
    startup cur0 = Ok (db, m) /\
    main_loop n m running clock (initial_state db) = Ok st /\
    apps (cur st) = apps db /\
    Forall (fun app => app ∈ TRACKED_APPS)
      (dict.keys (_app_started_time st)) /\
    _exit exit_clock st = Ok st'.
Proof.
  destruct (startup_total cur0)
    as (db & registered & Hstart & Happs & Htt & Hall).
  assert (Hids : Forall (fun app => is_Some (name_id_dict registered !! app))
                   TRACKED_APPS).
  { eapply Forall_impl; [exact Hall|]. intros app. apply name_id_dict_is_Some. }
  destruct (main_loop_total n _ running clock (initial_state db) Hids Htt)
    as (st & Hloop & [rows Hrows] & Happs' & Hkeys); [constructor|].
  assert (Hitems : Forall (fun item => is_Some (name_id_dict registered !! item.1))
                     (dict.items (_app_started_time st))).
  { unfold dict.keys, dict.items in *. apply Forall_fmap in Hkeys.
    eapply Forall_impl; [exact Hkeys|]. intros item Hin; simpl in *.
    rewrite Forall_forall in Hids. by apply Hids. }
  destruct (_exit_loop_rows _ _ exit_clock (cur st) rows Hrows Hitems)
    as (cur' & Hexit & _ & _).
  exists db, (name_id_dict registered), st.
  eexists. split; [done|]. split; [done|]. split; [done|]. split; [done|].
  unfold _exit, get_app_name_id_mapping.
  simpl in Happs'. rewrite Happs', Happs. simpl.
  rewrite Hexit. reflexivity.
Qed.

(** * More on the sessions of one app *)

Lemma closed_sessions_never_running id obs :
  Forall (fun o => o.1 = false) obs ->
  closed_sessions id None obs = [] /\ still_open None obs = None.
Proof.
  induction obs as [|[running now] obs IH]; intros Hall; [done|].
  apply Forall_cons in Hall as [Hrunning Hall]. simpl in Hrunning. subst.
  simpl. by apply IH.
Qed.

(** X2.  An app that has no recorded start and is never seen running gets
    no session row, however often it is polled and whatever the other
    apps do; it is still not recorded at the end. *)
Theorem never_running_no_session (m : gmap string Z)
    (trace : list Observation) (st : State) (rows : list TimeTrackingRow)
    (app : string) (id : Z) :
  m !! app = Some id ->
  (forall app', m !! app' = Some id -> app' = app) ->
  Forall (fun o => is_Some (m !! obs_app o)) trace ->
  time_tracking (cur st) = Some rows ->
  dict.wf (_app_started_time st) ->
  dict.get (_app_started_time st) app = None ->
  Forall (fun o => obs_app o = app -> obs_running o = false) trace ->
  exists st' new,
    run m trace st = Ok st' /\
    time_tracking (cur st') = Some (rows ++ new) /\
    filter (fun row => app_id row = id) new = [] /\
    dict.get (_app_started_time st') app = None.
Proof.
  intros Hid Honly Hall Hrows Hwf Hget Hnever.
  destruct (run_projection m app id Hid Honly trace st rows Hall Hrows Hwf)
    as (st' & new & Hrun & Hrows' & _ & _ & Hmine & Hopen).
  exists st', new. split; [done|]. split; [done|].
  rewrite Hget in Hmine, Hopen.
  destruct (closed_sessions_never_running id (observations_of app trace))
    as [Hnone Hclosed]; [|by rewrite Hmine, Hopen].
  unfold observations_of. apply Forall_fmap, Forall_forall.
  intros o Ho. apply list_elem_of_filter in Ho as [Happ Ho]. simpl.
  rewrite Forall_forall in Hnever. by apply Hnever.
Qed.

Lemma never_running_no_session_witness :
  exists st' new,
    run fresh_mapping
      [ observed "code" false (at_second 0);
        observed "firefox" true (at_second 0);
        observed "code" false (at_second 60);
        observed "firefox" false (at_second 60) ]
      (initial_state fresh_database) = Ok st' /\
    time_tracking (cur st') = Some ([] ++ new) /\
    filter (fun row => app_id row = 1) new = [] /\
    dict.get (_app_started_time st') "code" = None.
Proof.
  apply (never_running_no_session fresh_mapping
           [ observed "code" false (at_second 0);
             observed "firefox" true (at_second 0);
             observed "code" false (at_second 60);
             observed "firefox" false (at_second 60) ]
           (initial_state fresh_database) [] "code" 1).
  - reflexivity.
  - intros app' Hid.
    apply (name_id_dict_inj (default [] (apps fresh_database)) app' "code" 1);
      [apply (bool_decide_unpack _); vm_compute; exact I | exact Hid
      | reflexivity].
  - apply (bool_decide_unpack _). vm_compute. exact I.
  - reflexivity.
  - apply NoDup_nil_2.
  - reflexivity.
  - repeat constructor; simpl; congruence.
Defined.

(** A run, seen from one app, as far as the dict goes: no assumption on
    the ids beyond their existence. *)
Lemma observe_still_open m app o st :
  is_Some (m !! obs_app o) ->
  is_Some (time_tracking (cur st)) ->
  dict.wf (_app_started_time st) ->
  exists st',
    observe m (obs_app o) (obs_running o) (obs_now o) st = Ok st' /\
    is_Some (time_tracking (cur st')) /\
    dict.wf (_app_started_time st') /\
    dict.get (_app_started_time st') app
    = still_open (dict.get (_app_started_time st) app)
        (observations_of app [o]).
Proof.
  intros [id Hid] [rows Hrows] Hwf. destruct o as [a running now]; simpl in *.
  unfold observations_of. rewrite filter_cons, filter_nil. simpl.
  destruct running.
  - unfold observe.
    destruct (dict.get (_app_started_time st) a) as [start|] eqn:Hget.
    + exists st. repeat split; [eauto | done |].
      destruct (decide (a = app)) as [<-|Hne]; simpl; [by rewrite Hget | done].
    + eexists. split; [done|]. simpl. split; [eauto|].
      split; [by apply dict_wf_set|].
      destruct (decide (a = app)) as [<-|Hne]; simpl.
      * by rewrite Hget, dict_get_set_eq.
      * by rewrite dict_get_set_ne.
  - destruct (dict.get (_app_started_time st) a) as [start|] eqn:Hget.
    + rewrite (observe_stopped _ _ _ _ _ _ _ Hget Hid Hrows).
      eexists. split; [done|]. simpl. split; [eauto|].
      split; [by apply dict_wf_remove|].
      destruct (decide (a = app)) as [<-|Hne]; simpl.
      * by apply dict_get_remove_eq.
      * by rewrite dict_get_remove_ne.
    + unfold observe. rewrite Hget. exists st. repeat split; [eauto | done |].
      destruct (decide (a = app)) as [<-|Hne]; simpl; [by rewrite Hget | done].
Qed.

Lemma run_still_open m app trace : forall st,
  Forall (fun o => is_Some (m !! obs_app o)) trace ->
  is_Some (time_tracking (cur st)) ->
  dict.wf (_app_started_time st) ->
  exists st',
    run m trace st = Ok st' /\
    dict.wf (_app_started_time st') /\
    dict.get (_app_started_time st') app
    = still_open (dict.get (_app_started_time st) app)
        (observations_of app trace).
Proof.
  induction trace as [|o trace IH]; intros st Hall Htt Hwf.
  - by exists st.
  - apply Forall_cons in Hall as [Ho Hall].
    destruct (observe_still_open m app o st Ho Htt Hwf)
      as (st1 & Hobs & Htt1 & Hwf1 & Hopen1).
    destruct (IH st1 Hall Htt1 Hwf1) as (st' & Hrun & Hwf' & Hopen').
    exists st'. simpl. rewrite Hobs. simpl. split; [done|]. split; [done|].
    assert (Hsplit : observations_of app (o :: trace)
                     = observations_of app [o] ++ observations_of app trace).
    { unfold observations_of. change (o :: trace) with ([o] ++ trace).
      by rewrite filter_app, fmap_app. }
    by rewrite Hsplit, still_open_app, Hopen', Hopen1.
Qed.

(** X3.  After a run, an app that was polled at least once has a recorded
    start exactly when its last poll found it running. *)
Theorem recorded_iff_last_seen_running (m : gmap string Z)
    (trace : list Observation) (st : State) (app : string)
    (o : Observation) :
  Forall (fun o => is_Some (m !! obs_app o)) trace ->
  is_Some (time_tracking (cur st)) ->
  dict.wf (_app_started_time st) ->
  last (filter (fun o => obs_app o = app) trace) = Some o ->
  exists st',
    run m trace st = Ok st' /\
    (is_Some (dict.get (_app_started_time st') app) <-> obs_running o = true).
Proof.
  intros Hall Htt Hwf Hlast.
  destruct (run_still_open m app trace st Hall Htt Hwf)
    as (st' & Hrun & _ & Hopen).
  exists st'. split; [done|]. rewrite Hopen.
  apply last_Some in Hlast as [before Hfilter].
  unfold observations_of. rewrite Hfilter, fmap_app, still_open_app. simpl.
  destruct (obs_running o); simpl.
  - split; [done | eauto].
  - split; [by intros [? ?] | done].
Qed.

Lemma recorded_iff_last_seen_running_witness :
  exists st',
    run fresh_mapping
      [ observed "code" true (at_second 0);
        observed "firefox" true (at_second 0);
        observed "code" false (at_second 60);
        observed "firefox" true (at_second 60) ]
      (initial_state fresh_database) = Ok st' /\
    (is_Some (dict.get (_app_started_time st') "firefox")
     <-> obs_running (observed "firefox" true (at_second 60)) = true).
Proof.
  apply (recorded_iff_last_seen_running fresh_mapping
           [ observed "code" true (at_second 0);
             observed "firefox" true (at_second 0);
             observed "code" false (at_second 60);
             observed "firefox" true (at_second 60) ]
           (initial_state fresh_database) "firefox"
           (observed "firefox" true (at_second 60))).
  - apply (bool_decide_unpack _). vm_compute. exact I.
  - vm_compute. eauto.
  - apply NoDup_nil_2.
  - reflexivity.
Defined.

(** X4.  Every row the main loop or the signal handler writes carries the
    seconds its own two timestamps give: the whole seconds from start
    to end, modulo a day; and so exactly the whole seconds from start
    to end when the end is less than a day after the start. *)
Theorem persisted_seconds_from_timestamps :
  (forall m trace st st' rows,
     run m trace st = Ok st' ->
     time_tracking (cur st) = Some rows ->
     exists new,
       time_tracking (cur st') = Some (rows ++ new) /\
       Forall (fun row =>
                 let elapsed :=
                   decode_time (end_time row) - decode_time (start_time row) in
                 seconds row = (elapsed `div` 1000000) `mod` 86400 /\
                 (0 <= elapsed < 86400 * 1000000 ->
                  seconds row = elapsed `div` 1000000)) new) /\
  (forall clock st st' rows,
     _exit clock st = Ok st' ->
     time_tracking (cur st) = Some rows ->
     exists new,
       time_tracking (cur st') = Some (rows ++ new) /\
       Forall (fun row =>
                 let elapsed :=
                   decode_time (end_time row) - decode_time (start_time row) in
                 seconds row = (elapsed `div` 1000000) `mod` 86400 /\
                 (0 <= elapsed < 86400 * 1000000 ->
                  seconds row = elapsed `div` 1000000)) new).
Proof.
  set (P := fun row =>
              let elapsed :=
                decode_time (end_time row) - decode_time (start_time row) in
              seconds row = (elapsed `div` 1000000) `mod` 86400 /\
              (0 <= elapsed < 86400 * 1000000 ->
               seconds row = elapsed `div` 1000000)).
  assert (HP : forall id start now, P (session_row id start now)).
  { intros id start now. unfold P. simpl. split; [done|].
    intros Hd. apply Z.mod_small. split.
    - apply Z.div_pos; lia.
    - apply Z.div_lt_upper_bound; lia. }
  split.
  - intros m trace st st' rows Hrun Hrows.
    destruct (run_appends P HP _ _ _ _ _ Hrun Hrows) as (new & ? & ? & _).
    by exists new.
  - intros clock st st' rows Hexit Hrows.
    destruct (_exit_appends P HP _ _ _ _ Hexit Hrows) as (new & ? & ? & _).
    by exists new.
Qed.

Lemma persisted_seconds_from_timestamps_witness :
  (exists new,
     time_tracking
       (cur {| _app_started_time := [];
               cur := {| apps := apps fresh_database;
                         time_tracking :=
                           Some [session_row 1 0 (at_second 90000)] |} |})
     = Some ([] ++ new) /\
     Forall (fun row =>
               let elapsed :=
                 decode_time (end_time row) - decode_time (start_time row) in
               seconds row = (elapsed `div` 1000000) `mod` 86400 /\
               (0 <= elapsed < 86400 * 1000000 ->
                seconds row = elapsed `div` 1000000)) new) /\
  (exists new,
     time_tracking
       (cur {| _app_started_time := [("nvim", at_second 100)]%string;
               cur := {| apps := apps fresh_database;
                         time_tracking :=
                           Some [session_row 6 (at_second 100)
                                   (at_second 190)] |} |})
     = Some ([] ++ new) /\
     Forall (fun row =>
               let elapsed :=
                 decode_time (end_time row) - decode_time (start_time row) in
               seconds row = (elapsed `div` 1000000) `mod` 86400 /\
               (0 <= elapsed < 86400 * 1000000 ->
                seconds row = elapsed `div` 1000000)) new).
Proof.
  destruct persisted_seconds_from_timestamps as (Hrun & Hexit).
  split.
  - apply (Hrun fresh_mapping
             [observed "code" true 0; observed "code" false (at_second 90000)]
             (initial_state fresh_database)); reflexivity.
  - apply (Hexit (fun _ => at_second 190)
             {| _app_started_time := [("nvim", at_second 100)]%string;
                cur := fresh_database |}); reflexivity.
Defined.

(** With the observation times only non-decreasing, from [lo] on and
    with a recorded start not after [lo], no session ends before it
    starts or after the next one starts. *)
Lemma closed_sessions_monotone id obs : forall started lo,
  StronglySorted Z.le (snd <$> obs) ->
  Forall (fun t => lo <= t) (snd <$> obs) ->
  (forall start, started = Some start -> start <= lo) ->
  let sessions := closed_sessions id started obs in
  Forall (fun row => decode_time (start_time row) <= decode_time (end_time row))
    sessions /\
  StronglySorted
    (fun row row' => decode_time (end_time row) <= decode_time (start_time row'))
    sessions /\
  Forall (fun row => match started with
                     | Some start => start <= decode_time (start_time row)
                     | None => lo <= decode_time (start_time row)
                     end) sessions.
Proof.
  induction obs as [|[running now] obs IH]; intros started lo Hsorted Hlo Hstart.
  - simpl. repeat split; constructor.
  - csimpl in Hsorted. csimpl in Hlo.
    apply StronglySorted_inv in Hsorted as [Hsorted Hnow].
    apply Forall_cons in Hlo as [Hlonow Hlo].
    destruct running; simpl.
    + destruct (IH (Some (default now started)) now Hsorted Hnow)
        as (Hpos & Hord & Hlow).
      { intros start [= <-]. destruct started as [start|]; simpl; [|lia].
        specialize (Hstart start eq_refl). lia. }
      repeat split; [done | done |].
      eapply Forall_impl; [exact Hlow|]. intros row Hrow; simpl in Hrow.
      destruct started; simpl in *; lia.
    + destruct (IH None now Hsorted Hnow) as (Hpos & Hord & Hlow); [done|].
      destruct started as [start|].
      * specialize (Hstart start eq_refl).
        repeat split.
        -- apply Forall_cons. split; [simpl; lia | done].
        -- apply SSorted_cons; [done|].
           eapply Forall_impl; [exact Hlow|]. intros row Hrow; simpl in *. lia.
        -- apply Forall_cons. split; [simpl; lia|].
           eapply Forall_impl; [exact Hlow|]. intros row Hrow; simpl in *. lia.
      * repeat split; [done | done |].
        eapply Forall_impl; [exact Hlow|]. intros row Hrow; simpl in *. lia.
Qed.

(** X5.  On a clock that never goes back for an app (its observation times
    are non-decreasing and not before its recorded start, if any), no
    session of the app ends before it starts, and none starts before
    the one written before it ended. *)
Theorem monotone_clock_sessions (m : gmap string Z) (trace : list Observation)
    (st : State) (rows : list TimeTrackingRow) (app : string) (id : Z) :
  m !! app = Some id ->
  (forall app', m !! app' = Some id -> app' = app) ->
  Forall (fun o => is_Some (m !! obs_app o)) trace ->
  time_tracking (cur st) = Some rows ->
  dict.wf (_app_started_time st) ->
  StronglySorted Z.le
    (option_list (dict.get (_app_started_time st) app)
     ++ (obs_now <$> filter (fun o => obs_app o = app) trace)) ->
  exists st' new,
    run m trace st = Ok st' /\
    time_tracking (cur st') = Some (rows ++ new) /\
    Forall (fun row =>
              decode_time (start_time row) <= decode_time (end_time row))
      (filter (fun row => app_id row = id) new) /\
    StronglySorted
      (fun row row' =>
         decode_time (end_time row) <= decode_time (start_time row'))
      (filter (fun row => app_id row = id) new).
Proof.
  intros Hid Honly Hall Hrows Hwf Htimes.
  destruct (run_projection m app id Hid Honly trace st rows Hall Hrows Hwf)
    as (st' & new & Hrun & Hrows' & _ & _ & Hmine & _).
  exists st', new. split; [done|]. split; [done|].
  rewrite Hmine. rewrite <- observation_times in Htimes.
  set (started := dict.get (_app_started_time st) app) in *.
  set (obs := observations_of app trace) in *.
  assert (Hlo : exists lo,
             StronglySorted Z.le (snd <$> obs) /\
             Forall (fun t => lo <= t) (snd <$> obs) /\
             forall start, started = Some start -> start <= lo).
  { destruct started as [start|]; simpl in Htimes.
    - apply StronglySorted_inv in Htimes as [Hsorted Hfrom].
      exists start. repeat split; [done | done |].
      intros ? [= <-]; lia.
    - destruct (snd <$> obs) as [|t times] eqn:Hobs.
      + exists 0. repeat split; [constructor | constructor | done].
      + exists t. split; [done|]. split; [|done].
        apply StronglySorted_inv in Htimes as [_ Hfrom].
        apply Forall_cons. split; [lia | done]. }
  destruct Hlo as (lo & Hsorted & Hfrom & Hstart).
  destruct (closed_sessions_monotone id obs started lo Hsorted Hfrom Hstart)
    as (Hpos & Hord & _).
  by split.
Qed.

Lemma monotone_clock_sessions_witness :
  exists st' new,
    run fresh_mapping
      [ observed "code" true (at_second 0);
        observed "code" false (at_second 0);
        observed "code" true (at_second 0);
        observed "code" false (at_second 60) ]
      (initial_state fresh_database) = Ok st' /\
    time_tracking (cur st') = Some ([] ++ new) /\
    Forall (fun row =>
              decode_time (start_time row) <= decode_time (end_time row))
      (filter (fun row => app_id row = 1) new) /\
    StronglySorted
      (fun row row' =>
         decode_time (end_time row) <= decode_time (start_time row'))
      (filter (fun row => app_id row = 1) new).
Proof.
  apply (monotone_clock_sessions fresh_mapping
           [ observed "code" true (at_second 0);
             observed "code" false (at_second 0);
             observed "code" true (at_second 0);
             observed "code" false (at_second 60) ]
           (initial_state fresh_database) [] "code" 1).
  - reflexivity.
  - intros app' Hid.
    apply (name_id_dict_inj (default [] (apps fresh_database)) app' "code" 1);
      [apply (bool_decide_unpack _); vm_compute; exact I | exact Hid
      | reflexivity].
  - apply (bool_decide_unpack _). vm_compute. exact I.
  - reflexivity.
  - apply NoDup_nil_2.
  - vm_compute. repeat constructor; discriminate.
Defined.

(** * The reports *)

(** X6.  [--report] splits every total into hours, minutes and seconds
    without loss: the three fields of a line add up to the total of its
    row, minutes and seconds stay below 60, and the hours of a total
    that is not negative are not negative (they are not capped). *)
Theorem report_lines_add_up (cur : Database)
    (lines : list (string * Z * Z * Z)) :
  report cur = Ok lines ->
  exists totals,
    get_app_time_sum cur = Ok totals /\
    Forall2 (fun line total =>
               let '(app_name, h, m, s) := line in
               app_name = total.1 /\
               h * 3600 + m * 60 + s = total.2 /\
               0 <= m < 60 /\ 0 <= s < 60 /\
               (0 <= total.2 -> 0 <= h)) lines totals.
Proof.
  unfold report. destruct (get_app_time_sum cur) as [totals|]; [|done].
  simpl. intros [= <-]. exists totals. split; [done|].
  apply Forall2_fmap_l, Forall_Forall2_diag, Forall_forall.
  intros [app_name total_s] _. simpl.
  split; [done|]. repeat split; Z.div_mod_to_equations; lia.
Qed.

Lemma report_lines_add_up_witness :
  exists totals,
    get_app_time_sum
      {| apps := apps fresh_database;
         time_tracking := Some [session_row 1 0 (at_second 3725)] |}
    = Ok totals /\
    Forall2 (fun line total =>
               let '(app_name, h, m, s) := line in
               app_name = total.1 /\
               h * 3600 + m * 60 + s = total.2 /\
               0 <= m < 60 /\ 0 <= s < 60 /\
               (0 <= total.2 -> 0 <= h))
      [("code"%string, 1, 2, 5)] totals.
Proof.
  apply (report_lines_add_up
           {| apps := apps fresh_database;
              time_tracking := Some [session_row 1 0 (at_second 3725)] |}).
  reflexivity.
Defined.



Lemma sum_app (l1 l2 : list Z) : sum (l1 ++ l2) = sum l1 + sum l2.
Proof. induction l1 as [|x l1 IH]; simpl; [done | rewrite IH; lia]. Qed.

Lemma sum_fmap_add {A} (F H : A -> Z) (l : list A) :
  sum ((fun x => F x + H x) <$> l) = sum (F <$> l) + sum (H <$> l).
Proof. induction l as [|x l IH]; csimpl; [done | rewrite IH; lia]. Qed.

Lemma sum_fmap_zero {A} (l : list A) : sum ((fun _ => 0) <$> l) = 0.
Proof. induction l as [|x l IH]; csimpl; [done | by rewrite IH]. Qed.

(** Picking one key out of a list of distinct keys picks it once. *)
Lemma sum_fmap_indicator (groups : list string) (key : string) (v : Z) :
  NoDup groups -> key ∈ groups ->
  sum ((fun group => if decide (key = group) then v else 0) <$> groups) = v.
Proof.
  induction groups as [|group groups IH]; intros Hnd Hin.
  - by apply elem_of_nil in Hin.
  - apply NoDup_cons in Hnd as [Hgroup Hnd]. csimpl.
    destruct (decide (key = group)) as [->|Hne].
    + assert (Hrest : sum ((fun g => if decide (group = g) then v else 0)
                             <$> groups) = 0); [|lia].
      clear IH Hnd Hin. induction groups as [|g groups IH]; csimpl; [done|].
      apply not_elem_of_cons in Hgroup as [Hne Hgroup].
      rewrite decide_False by done. by rewrite IH.
    + apply elem_of_cons in Hin as [?|Hin]; [done|]. by rewrite IH.
Qed.

(** Summing group by group sums everything. *)
Lemma sum_by_groups (groups : list string)
    (joined : list (TimeTrackingRow * string)) :
  NoDup groups ->
  (forall jr, jr ∈ joined -> jr.2 ∈ groups) ->
  sum ((fun group =>
          sum (seconds ∘ fst <$> filter (fun jr => jr.2 = group) joined))
         <$> groups)
  = sum (seconds ∘ fst <$> joined).
Proof.
  intros Hnd. induction joined as [|jr joined IH]; intros Hin.
  - csimpl. apply sum_fmap_zero.
  - csimpl. rewrite <- IH by (intros; apply Hin; by right).
    rewrite <- (sum_fmap_indicator groups jr.2 (seconds jr.1) Hnd)
      by (apply Hin; by left).
    rewrite <- sum_fmap_add. f_equal.
    apply list_fmap_ext. intros _ group _. rewrite filter_cons.
    by destruct (decide (jr.2 = group)).
Qed.

(** With unique ROWIDs a session is joined once if its app is
    registered and not at all otherwise. *)
Lemma sum_join sessions registered :
  NoDup (ROWID <$> registered) ->
  sum (seconds ∘ fst <$> join_on_app_id sessions registered)
  = sum (seconds
           <$> filter (fun session => app_id session ∈ ROWID <$> registered)
                 sessions).
Proof.
  intros Hnd. unfold join_on_app_id.
  induction sessions as [|session sessions IH]; [done|].
  rewrite bind_cons, fmap_app, sum_app, IH, filter_cons.
  destruct (decide (app_id session ∈ ROWID <$> registered)) as [Hin|Hnotin].
  - apply list_elem_of_fmap in Hin as (entry & Hid & Hentry).
    rewrite (list_filter_iff _ (fun app => ROWID app = ROWID entry))
      by (intros; by rewrite Hid).
    rewrite (filter_unique_key ROWID) by done. csimpl. lia.
  - rewrite filter_none; [done|].
    intros entry Hentry Hid. apply Hnotin. rewrite <- Hid.
    by apply list_elem_of_fmap_2.
Qed.

(** X8.  The query loses and doubles nothing: with unique ROWIDs in the
    apps table, its totals add up to the seconds of all the session
    rows whose app is registered (rows of an unknown id are left
    out). *)
Theorem report_totals_add_up (cur : Database) (registered : list AppsRow)
    (sessions : list TimeTrackingRow) :
  apps cur = Some registered ->
  time_tracking cur = Some sessions ->
  NoDup (ROWID <$> registered) ->
  exists totals,
    get_app_time_sum cur = Ok totals /\
    sum (snd <$> totals)
    = sum (seconds
             <$> filter (fun session => app_id session ∈ ROWID <$> registered)
                   sessions).
Proof.
  intros Happs Hsessions Hnd.
  unfold get_app_time_sum, join_apps_table. rewrite Happs, Hsessions. simpl.
  eexists. split; [reflexivity|].
  rewrite <- sum_join by done.
  rewrite <- list_fmap_compose.
  apply sum_by_groups; [apply NoDup_remove_dups|].
  intros jr Hjr. apply elem_of_remove_dups. by apply list_elem_of_fmap_2.
Qed.

Lemma report_totals_add_up_witness :
  exists totals,
    get_app_time_sum
      {| apps := apps fresh_database;
         time_tracking :=
           Some [ session_row 1 0 (at_second 100);
                  session_row 2 0 (at_second 30);
                  session_row 9 0 (at_second 7);
                  session_row 1 (at_second 200) (at_second 250) ] |}
    = Ok totals /\
    sum (snd <$> totals)
    = sum (seconds
             <$> filter (fun session =>
                           app_id session
                           ∈ ROWID <$> default [] (apps fresh_database))
                   [ session_row 1 0 (at_second 100);
                     session_row 2 0 (at_second 30);
                     session_row 9 0 (at_second 7);
                     session_row 1 (at_second 200) (at_second 250) ]).
Proof.
  apply (report_totals_add_up _ (default [] (apps fresh_database)));
    [reflexivity | reflexivity |].
  apply (bool_decide_unpack _). vm_compute. exact I.
Defined.

Lemma filter_fmap {A B} (f : A -> B) (P : B -> Prop)
    `{forall y, Decision (P y)} (l : list A) :
  filter P (f <$> l) = f <$> filter (fun x => P (f x)) l.
Proof.
  induction l as [|x l IH]; [done|]. csimpl.
  rewrite !filter_cons, IH. by destruct (decide (P (f x))).
Qed.

Lemma filter_eq_NoDup (groups : list string) (target : string) :
  NoDup groups ->
  filter (fun group => group = target) groups
  = if decide (target ∈ groups) then [target] else [].
Proof.
  intros Hnd. destruct (decide (target ∈ groups)) as [Hin|Hnotin].
  - apply (filter_unique_key id groups target); [|done].
    by rewrite list_fmap_id.
  - apply filter_none. intros group Hgroup ->. done.
Qed.

(** X9.  [--hour-report-for] prints at most one line: over an apps table
    with unique names, for the name of a registered app that has
    session rows, the one line of the sum of their seconds; for a
    registered app without session rows and for a name that is not
    registered, nothing. *)
Theorem hour_report_for_one_line (cur : Database)
    (registered : list AppsRow) (sessions : list TimeTrackingRow) :
  apps cur = Some registered ->
  time_tracking cur = Some sessions ->
  NoDup (name <$> registered) ->
  (forall entry,
     entry ∈ registered ->
     hour_report_for cur (name entry)
     = Ok (match filter (fun session => app_id session = ROWID entry) sessions
           with
           | [] => []
           | mine => [sum (seconds <$> mine)]
           end)) /\
  (forall target,
     target ∉ name <$> registered -> hour_report_for cur target = Ok []).
Proof.
  intros Happs Hsessions Hnd.
  unfold hour_report_for, get_app_time_sum, join_apps_table.
  rewrite Happs, Hsessions. simpl.
  set (joined := join_on_app_id sessions registered).
  assert (Hgroups : forall target,
             target ∈ remove_dups (joined.*2)
             <-> exists session, (session, target) ∈ joined).
  { intros target. rewrite elem_of_remove_dups, list_elem_of_fmap. split.
    - intros ([session app] & -> & Hin). by exists session.
    - intros [session Hin]. by exists (session, target). }
  split.
  - intros entry Hentry. f_equal.
    rewrite (filter_fmap _ (fun row => row.1 = name entry)). simpl.
    rewrite filter_eq_NoDup by apply NoDup_remove_dups.
    destruct (decide (name entry ∈ remove_dups (joined.*2))) as [Hin|Hnotin].
    + csimpl. unfold joined. rewrite join_under_name by done.
      apply Hgroups in Hin as [session Hin].
      apply elem_of_join in Hin as (Hsession & entry' & Hentry' & Hid & Hname).
      assert (entry' = entry) as ->.
      { apply (NoDup_fmap_1 name) in Hnd as Hnd'.
        apply list_elem_of_lookup in Hentry as [i Hi].
        apply list_elem_of_lookup in Hentry' as [j Hj].
        assert (j = i) as ->; [|congruence].
        apply (NoDup_lookup (name <$> registered) j i (name entry)); [done| |].
        - by rewrite list_lookup_fmap, Hj; simpl; rewrite Hname.
        - by rewrite list_lookup_fmap, Hi. }
      destruct (filter _ sessions) as [|first mine] eqn:Hmine; [|done].
      exfalso.
      exact (filter_nil_not_elem_of _ _ session Hmine (eq_sym Hid) Hsession).
    + csimpl.
      destruct (filter _ sessions) as [|session mine] eqn:Hmine; [done|].
      exfalso. apply Hnotin, Hgroups. exists session.
      assert (Hin : session ∈ filter
                      (fun session => app_id session = ROWID entry) sessions)
        by (rewrite Hmine; by left).
      apply list_elem_of_filter in Hin as [Hid Hin].
      apply elem_of_join. split; [done|]. by exists entry.
  - intros target Hnotin. f_equal.
    rewrite (filter_fmap _ (fun row => row.1 = target)). simpl.
    rewrite filter_eq_NoDup by apply NoDup_remove_dups.
    rewrite decide_False; [done|].
    intros Hin. apply Hgroups in Hin as [session Hin].
    apply elem_of_join in Hin as (_ & entry & Hentry & _ & <-).
    apply Hnotin. by apply list_elem_of_fmap_2.
Qed.

Lemma hour_report_for_one_line_witness :
  hour_report_for
    {| apps := apps fresh_database;
       time_tracking :=
         Some [ session_row 1 0 (at_second 100);
                session_row 2 0 (at_second 30);
                session_row 1 (at_second 200) (at_second 250) ] |}
    (name {| ROWID := 1; name := "code" |})
  = Ok (match filter (fun session =>
                        app_id session = ROWID {| ROWID := 1; name := "code" |})
                [ session_row 1 0 (at_second 100);
                  session_row 2 0 (at_second 30);
                  session_row 1 (at_second 200) (at_second 250) ]
        with
        | [] => []
        | mine => [sum (seconds <$> mine)]
        end) /\
  hour_report_for
    {| apps := apps fresh_database;
       time_tracking :=
         Some [ session_row 1 0 (at_second 100);
                session_row 2 0 (at_second 30);
                session_row 1 (at_second 200) (at_second 250) ] |}
    "emacs" = Ok [].
Proof.
  destruct (hour_report_for_one_line
              {| apps := apps fresh_database;
                 time_tracking :=
                   Some [ session_row 1 0 (at_second 100);
                          session_row 2 0 (at_second 30);
                          session_row 1 (at_second 200) (at_second 250) ] |}
              (default [] (apps fresh_database))
              [ session_row 1 0 (at_second 100);
                session_row 2 0 (at_second 30);
                session_row 1 (at_second 200) (at_second 250) ])
    as [Hone Hnone]; [reflexivity | reflexivity | |].
  - apply (bool_decide_unpack _). vm_compute. exact I.
  - split.
    + apply Hone. apply (bool_decide_unpack _). vm_compute. exact I.
    + apply Hnone. apply (bool_decide_unpack _). vm_compute. exact I.
Defined.

(** * More on the tables *)

(** X10.  After [--clear-db] nothing is left of the file, and the next
    start-up registers the tracked apps afresh, in the order of the
    list and from ROWID 1, over an empty session table. *)
Theorem clear_db_then_startup (cur : Database) :
  clear_db cur = empty_database /\
  startup (clear_db cur) = Ok (fresh_database, fresh_mapping).
Proof.
  assert (Hclear : clear_db cur = empty_database) by by destruct cur.
  split; [done|]. rewrite Hclear. apply startup_fresh.
Qed.

Lemma filter_ext_in {A} (P Q : A -> Prop)
    `{forall x, Decision (P x)} `{forall x, Decision (Q x)} (l : list A) :
  (forall x, x ∈ l -> P x <-> Q x) -> filter P l = filter Q l.
Proof.
  induction l as [|x l IH]; intros Hext; [done|].
  rewrite !filter_cons.
  assert (Hx : P x <-> Q x) by (apply Hext; by left).
  rewrite IH by (intros; apply Hext; by right).
  destruct (decide (P x)), (decide (Q x)); tauto.
Qed.

(** Populating from a list without repetitions adds exactly the names
    that are missing, in the order of the list, under ROWIDs that grow
    and lie above all those in use. *)
Lemma populate_apps_exact tracked : forall cur registered,
  NoDup tracked ->
  apps cur = Some registered ->
  exists added,
    populate_apps tracked cur
    = Ok {| apps := Some (registered ++ added);
            time_tracking := time_tracking cur |} /\
    name <$> added
    = filter (fun app => app ∉ name <$> registered) tracked /\
    Forall (fun row => Forall (fun old => ROWID old < ROWID row) registered)
      added /\
    StronglySorted Z.lt (ROWID <$> added).
Proof.
  induction tracked as [|app tracked IH]; intros cur registered Hnd Happs.
  - exists []. simpl. rewrite app_nil_r. destruct cur; simpl in *; subst.
    repeat split; constructor.
  - apply NoDup_cons in Hnd as [Happ Hnd]. simpl.
    destruct (decide (app ∈ name <$> registered)) as [Hin|Hnotin].
    + rewrite (populate_app_present _ _ _ Happs Hin). simpl.
      destruct (IH cur registered Hnd Happs) as (added & -> & Hnames & Hold & Hnew).
      exists added. split; [done|].
      rewrite filter_cons_False by (intros Hno; by apply Hno). done.
    + rewrite (populate_app_absent _ _ _ Happs Hnotin). simpl.
      set (row := {| ROWID := next_rowid registered; name := app |}).
      destruct (IH {| apps := Some (registered ++ [row]);
                      time_tracking := time_tracking cur |}
                  (registered ++ [row]) Hnd eq_refl)
        as (added & -> & Hnames & Hold & Hnew).
      exists (row :: added). rewrite <- app_assoc. split; [done|].
      split; [|split].
      * rewrite filter_cons_True by done. rewrite fmap_cons, Hnames.
        simpl. f_equal. apply filter_ext_in. intros x Hx.
        rewrite fmap_app, elem_of_app. csimpl.
        rewrite list_elem_of_singleton.
        split; [tauto|]. intros Hno [? | ->]; done.
      * apply Forall_cons. split.
        -- apply Forall_forall. intros old Hin. by apply next_rowid_fresh.
        -- eapply Forall_impl; [exact Hold|]. intros new Hall; simpl in Hall.
           by apply Forall_app in Hall as [? _].
      * csimpl. apply SSorted_cons; [done|].
        apply Forall_fmap. eapply Forall_impl; [exact Hold|].
        intros new Hall; simpl in *.
        apply Forall_app in Hall as [_ Hrow].
        apply Forall_cons in Hrow as [Hrow _]. exact Hrow.
Qed.

(** X11.  [populate_apps_table_if_needed] raises when there is no apps
    table.  On an apps table, whatever it holds, it writes exactly the
    tracked apps that are missing, after the rows already there and in
    the order of [TRACKED_APPS], under ROWIDs that grow and lie above
    all those in use, and leaves the session table alone. *)
Theorem populate_adds_missing_apps (cur : Database) :
  match apps cur with
  | None =>
      populate_apps_table_if_needed cur
      = Raise (OperationalError APPS_TABLE_NAME)
  | Some registered =>
      exists added,
        populate_apps_table_if_needed cur
        = Ok {| apps := Some (registered ++ added);
                time_tracking := time_tracking cur |} /\
        name <$> added
        = filter (fun app => app ∉ name <$> registered) TRACKED_APPS /\
        Forall (fun row => Forall (fun old => ROWID old < ROWID row) registered)
          added /\
        StronglySorted Z.lt (ROWID <$> added)
  end.
Proof.
  destruct (apps cur) as [registered|] eqn:Happs.
  - apply populate_apps_exact; [|done].
    apply (bool_decide_unpack _). vm_compute. exact I.
  - unfold populate_apps_table_if_needed, TRACKED_APPS. simpl.
    unfold populate_app_if_needed. by rewrite Happs.
Qed.

(** X12.  The INSERT into the apps table: without the table it raises; a
    name already there violates the UNIQUE constraint; a new name goes
    into one row after the others, under a ROWID above all those in
    use, so that unique names and unique ROWIDs stay unique. *)
Theorem apps_insert_unique (cur : Database) (app : string) :
  match apps cur with
  | None => insert apps_table cur app = Raise (OperationalError APPS_TABLE_NAME)
  | Some registered =>
      if decide (app ∈ name <$> registered)
      then insert apps_table cur app = Raise (IntegrityError "name")
      else
        exists row,
          insert apps_table cur app
          = Ok {| apps := Some (registered ++ [row]);
                  time_tracking := time_tracking cur |} /\
          name row = app /\
          Forall (fun old => ROWID old < ROWID row) registered /\
          (NoDup (name <$> registered) ->
           NoDup (name <$> registered ++ [row])) /\
          (NoDup (ROWID <$> registered) ->
           NoDup (ROWID <$> registered ++ [row]))
  end.
Proof.
  unfold insert. simpl. destruct (apps cur) as [registered|]; [|done].
  simpl. destruct (decide (app ∈ name <$> registered)) as [Hin|Hnotin].
  - by rewrite bool_decide_eq_true_2.
  - rewrite bool_decide_eq_false_2 by done. simpl.
    eexists. split; [done|]. simpl. split; [done|].
    assert (Hfresh : Forall (fun old => ROWID old < next_rowid registered)
                       registered).
    { apply Forall_forall. intros old Hold. by apply next_rowid_fresh. }
    split; [done|]. split; intros Hnd; rewrite fmap_app; apply NoDup_app.
    + split; [done|]. split; [|apply NoDup_singleton].
      intros x Hx Hx'. apply list_elem_of_singleton in Hx'. by subst.
    + split; [done|]. split; [|apply NoDup_singleton].
      intros x Hx Hx'. apply list_elem_of_singleton in Hx'. subst x.
      apply list_elem_of_fmap in Hx as (old & Heq & Hold).
      rewrite Forall_forall in Hfresh. specialize (Hfresh _ Hold).
      simpl in Heq. lia.
Qed.

Lemma apps_insert_unique_witness :
  insert apps_table fresh_database "code" = Raise (IntegrityError "name") /\
  exists row,
    insert apps_table fresh_database "emacs"
    = Ok {| apps := Some (default [] (apps fresh_database) ++ [row]);
            time_tracking := time_tracking fresh_database |} /\
    name row = "emacs"%string /\
    Forall (fun old => ROWID old < ROWID row)
      (default [] (apps fresh_database)) /\
    NoDup (name <$> default [] (apps fresh_database) ++ [row]) /\
    NoDup (ROWID <$> default [] (apps fresh_database) ++ [row]).
Proof.
  split; [exact (apps_insert_unique fresh_database "code")|].
  destruct (apps_insert_unique fresh_database "emacs")
    as (row & Hinsert & Hname & Hfresh & Hnames & Hrowids).
  exists row. split; [exact Hinsert|]. split; [exact Hname|].
  split; [exact Hfresh|]. split.
  - apply Hnames. apply (bool_decide_unpack _). vm_compute. exact I.
  - apply Hrowids. apply (bool_decide_unpack _). vm_compute. exact I.
Defined.

(** X13.  [get_app_name_id_mapping] raises without the apps table.  On an
    apps table its dict has an entry for exactly the names of the
    table, every entry carries the ROWID of a row of that name, with
    unique names every row is found under its name, and with unique
    ROWIDs no two names share an id. *)
Theorem app_name_id_mapping_entries (cur : Database) :
  match apps cur with
  | None =>
      get_app_name_id_mapping cur = Raise (OperationalError APPS_TABLE_NAME)
  | Some registered =>
      exists m,
        get_app_name_id_mapping cur = Ok m /\
        (forall app, is_Some (m !! app) <-> app ∈ name <$> registered) /\
        (forall app id,
           m !! app = Some id ->
           exists row, row ∈ registered /\ name row = app /\ ROWID row = id) /\
        (NoDup (name <$> registered) ->
         forall row, row ∈ registered -> m !! name row = Some (ROWID row)) /\
        (NoDup (ROWID <$> registered) ->
         forall app app' id,
           m !! app = Some id -> m !! app' = Some id -> app = app')
  end.
Proof.
  unfold get_app_name_id_mapping.
  destruct (apps cur) as [registered|]; [|done].
  exists (name_id_dict registered). split; [done|]. split; [|split; [|split]].
  - intros app. split; [|apply name_id_dict_is_Some].
    intros [id Hid].
    destruct (name_id_dict_Some _ _ _ Hid) as (row & Hrow & <- & _).
    by apply list_elem_of_fmap_2.
  - apply name_id_dict_Some.
  - intros Hnd row Hrow. by apply name_id_dict_lookup.
  - intros Hnd app app' id. by apply name_id_dict_inj.
Qed.

Lemma app_name_id_mapping_entries_witness :
  exists m,
    get_app_name_id_mapping
      {| apps := Some [ {| ROWID := 3; name := "code" |};
                        {| ROWID := 5; name := "nvim" |} ];
         time_tracking := None |} = Ok m /\
    m !! name {| ROWID := 5; name := "nvim" |} = Some 5 /\
    (forall app app' id,
       m !! app = Some id -> m !! app' = Some id -> app = app').
Proof.
  destruct (app_name_id_mapping_entries
              {| apps := Some [ {| ROWID := 3; name := "code" |};
                                {| ROWID := 5; name := "nvim" |} ];
                 time_tracking := None |})
    as (m & Hm & _ & _ & Hlookup & Hinj).
  exists m. split; [exact Hm|]. split.
  - apply (Hlookup ltac:(apply (bool_decide_unpack _); vm_compute; exact I)
             {| ROWID := 5; name := "nvim" |}).
    apply (bool_decide_unpack _). vm_compute. exact I.
  - apply Hinj. apply (bool_decide_unpack _). vm_compute. exact I.
Defined.

(** What a successful pass over the items needed. *)
Lemma _exit_loop_Ok_inv m items : forall clock cur cur',
  _exit_loop m clock items cur = Ok cur' ->
  Forall (fun item => is_Some (m !! item.1)) items /\
  (items <> [] -> is_Some (time_tracking cur)).
Proof.
  induction items as [|[app start] items IH]; simpl; intros clock cur cur' Hloop.
  - split; [constructor | done].
  - unfold getitem in Hloop. destruct (m !! app) as [id|] eqn:Hid; [|done].
    unfold insert in Hloop. simpl in Hloop.
    destruct (time_tracking cur) as [rows|]; [|done]. simpl in Hloop.
    destruct (IH _ _ _ Hloop) as [Hall _].
    split; [|eauto]. apply Forall_cons. split; [simpl; eauto | done].
Qed.

(** X14.  The signal handler goes through exactly when the apps table exists
    and either no app is open, or the session table exists and every
    open app is registered.  With no app open it leaves the state as it
    is. *)
Theorem exit_succeeds_iff (clock : nat -> datetime) (st : State) :
  ((exists st', _exit clock st = Ok st')
   <-> exists registered,
         apps (cur st) = Some registered /\
         (_app_started_time st = [] \/
          (is_Some (time_tracking (cur st)) /\
           Forall (fun app => app ∈ name <$> registered)
             (dict.keys (_app_started_time st))))) /\
  (_app_started_time st = [] -> is_Some (apps (cur st)) ->
   _exit clock st = Ok st).
Proof.
  split.
  - unfold _exit, get_app_name_id_mapping. split.
    + intros [st' Hexit].
      destruct (apps (cur st)) as [registered|] eqn:Happs; [|done].
      simpl in Hexit. exists registered. split; [done|].
      destruct (_exit_loop _ clock _ (cur st)) as [cur'|] eqn:Hloop; [|done].
      apply _exit_loop_Ok_inv in Hloop as [Hall Htt].
      destruct (_app_started_time st) as [|item items] eqn:Hitems; [by left|].
      right. split; [by apply Htt|].
      unfold dict.keys, dict.items in *. apply Forall_fmap.
      eapply Forall_impl; [exact Hall|]. intros [app start] [id Hid]; simpl in *.
      destruct (name_id_dict_Some _ _ _ Hid) as (row & Hrow & <- & _).
      by apply list_elem_of_fmap_2.
    + intros (registered & Happs & [Hempty | [[rows Hrows] Hkeys]]).
      * rewrite Happs, Hempty. simpl. eauto.
      * assert (Hall : Forall (fun item =>
                                 is_Some (name_id_dict registered !! item.1))
                         (dict.items (_app_started_time st))).
        { unfold dict.keys, dict.items in *. apply Forall_fmap in Hkeys.
          eapply Forall_impl; [exact Hkeys|].
          intros item Hin. by apply name_id_dict_is_Some. }
        destruct (_exit_loop_rows _ _ clock (cur st) rows Hrows Hall)
          as (cur' & Hloop & _ & _).
        rewrite Happs. simpl. rewrite Hloop. simpl. eauto.
  - intros Hempty [registered Happs].
    unfold _exit, get_app_name_id_mapping. rewrite Happs, Hempty. simpl.
    destruct st as [started db]. simpl in *. by subst.
Qed.

Lemma exit_succeeds_iff_witness :
  _exit (fun _ => at_second 500) (initial_state fresh_database)
  = Ok (initial_state fresh_database) /\
  exists st',
    _exit (fun _ => at_second 500) (open_since "code" (at_second 0)) = Ok st'.
Proof.
  destruct (exit_succeeds_iff (fun _ => at_second 500)
              (initial_state fresh_database)) as [_ Hempty].
  destruct (exit_succeeds_iff (fun _ => at_second 500)
              (open_since "code" (at_second 0))) as [Hiff _].
  split; [apply Hempty; [reflexivity | vm_compute; eauto]|].
  apply Hiff. exists (default [] (apps fresh_database)).
  split; [reflexivity|]. right. split; [vm_compute; eauto|].
  apply (bool_decide_unpack _). vm_compute. exact I.
Defined.

(** X15.  A restart keeps what the file holds: start-up on a file whose apps
    table has unique names keeps every row of the apps table in place,
    keeps every session row, and gives every registered name the id it
    had. *)
Theorem restart_keeps_ids (cur0 : Database) (registered : list AppsRow) :
  apps cur0 = Some registered ->
  NoDup (name <$> registered) ->
  exists db m added,
    startup cur0 = Ok (db, m) /\
    apps db = Some (registered ++ added) /\
    time_tracking db = Some (default [] (time_tracking cur0)) /\
    forall row, row ∈ registered -> m !! name row = Some (ROWID row).
Proof.
  intros Happs Hnd. unfold startup.
  assert (Hcur1 : create_table_if_not_exists apps_table cur0 = cur0).
  { unfold create_table_if_not_exists. simpl. by rewrite Happs. }
  rewrite Hcur1.
  set (cur2 := create_table_if_not_exists time_tracking_table cur0).
  assert (Happs2 : apps cur2 = Some registered).
  { unfold cur2, create_table_if_not_exists. simpl.
    by destruct (time_tracking cur0). }
  assert (Htt2 : time_tracking cur2 = Some (default [] (time_tracking cur0))).
  { unfold cur2, create_table_if_not_exists. simpl.
    by destruct (time_tracking cur0) eqn:Htt. }
  destruct (populate_apps_appends TRACKED_APPS cur2 registered Happs2 Hnd)
    as (cur3 & added & Hpop & Happs3 & Htt3 & Hnames3 & _).
  unfold populate_apps_table_if_needed. rewrite Hpop. simpl.
  assert (Hsame : populate_time_tracking_table_if_needed cur3 = cur3).
  { unfold populate_time_tracking_table_if_needed, table_exists. simpl.
    by rewrite Htt3, Htt2. }
  rewrite Hsame. unfold get_app_name_id_mapping. rewrite Happs3. simpl.
  exists cur3, (name_id_dict (registered ++ added)), added.
  split; [done|]. split; [done|]. split; [congruence|].
  intros row Hrow. apply name_id_dict_lookup; [done|].
  apply elem_of_app. by left.
Qed.

Lemma restart_keeps_ids_witness :
  exists db m added,
    startup {| apps := Some [ {| ROWID := 4; name := "firefox" |};
                              {| ROWID := 9; name := "emacs" |} ];
               time_tracking := Some [session_row 4 0 (at_second 30)] |}
    = Ok (db, m) /\
    apps db = Some ([ {| ROWID := 4; name := "firefox" |};
                      {| ROWID := 9; name := "emacs" |} ] ++ added) /\
    time_tracking db = Some [session_row 4 0 (at_second 30)] /\
    forall row,
      row ∈ [ {| ROWID := 4; name := "firefox" |};
              {| ROWID := 9; name := "emacs" |} ] ->
      m !! name row = Some (ROWID row).
Proof.
  apply (restart_keeps_ids
           {| apps := Some [ {| ROWID := 4; name := "firefox" |};
                             {| ROWID := 9; name := "emacs" |} ];
              time_tracking := Some [session_row 4 0 (at_second 30)] |});
    [reflexivity|].
  apply (bool_decide_unpack _). vm_compute. exact I.
Defined.

(** * More on one step and one pass *)

(** X16.  The only step that can raise is the closing one: for an app seen
    not running that has a recorded start, [KeyError] when the app has
    no id, and otherwise [OperationalError] when there is no session
    table.  The other three kinds of step never raise. *)
Theorem observe_raises_iff (m : gmap string Z) (app : string)
    (running : bool) (now : datetime) (st : State) (e : exn) :
  observe m app running now st = Raise e <->
  running = false /\
  is_Some (dict.get (_app_started_time st) app) /\
  ((m !! app = None /\ e = KeyError app) \/
   (is_Some (m !! app) /\ time_tracking (cur st) = None /\
    e = OperationalError TIME_TRACKING_TABLE_NAME)).
Proof.
  unfold observe, getitem, insert. simpl.
  destruct running.
  { destruct (dict.get _ app); (split; [done | intros [? _]; done]). }
  destruct (dict.get (_app_started_time st) app) as [start|] eqn:Hget.
  2: { split; [done | by intros (_ & [? ?] & _)]. }
  destruct (m !! app) as [id|] eqn:Hid; simpl.
  - destruct (time_tracking (cur st)) as [rows|] eqn:Hrows; simpl.
    + rewrite (dict_del_Some _ _ _ Hget). simpl. split; [done|].
      intros (_ & _ & [[? _] | (_ & ? & _)]); done.
    + split.
      * intros [= <-]. split; [done|]. split; [eauto|]. right. eauto.
      * intros (_ & _ & [[? _] | (_ & _ & ->)]); done.
  - split.
    + intros [= <-]. split; [done|]. split; [eauto|]. by left.
    + intros (_ & _ & [[_ ->] | ([? ?] & _)]); done.
Qed.

Lemma observe_raises_iff_witness :
  observe ∅ "code" false (at_second 60) (open_since "code" 0)
  = Raise (KeyError "code") /\
  observe fresh_mapping "code" false (at_second 60)
    {| _app_started_time := [("code", 0)]%string;
       cur := {| apps := apps fresh_database; time_tracking := None |} |}
  = Raise (OperationalError TIME_TRACKING_TABLE_NAME).
Proof.
  split.
  - apply (observe_raises_iff ∅ "code" false (at_second 60)
             (open_since "code" 0) (KeyError "code")).
    split; [reflexivity|]. split; [vm_compute; eauto|]. left.
    split; reflexivity.
  - apply (observe_raises_iff fresh_mapping "code" false (at_second 60)
             {| _app_started_time := [("code", 0)]%string;
                cur := {| apps := apps fresh_database;
                          time_tracking := None |} |}
             (OperationalError TIME_TRACKING_TABLE_NAME)).
    split; [reflexivity|]. split; [vm_compute; eauto|]. right.
    split; [vm_compute; eauto|]. split; reflexivity.
Defined.

(** In one pass an app is polled once, at its place in the list. *)
Lemma tick_observations_of running clock i app :
  TRACKED_APPS !! i = Some app ->
  observations_of app (tick_trace running clock) = [(running i, clock i)].
Proof.
  intros Hi.
  do 7 (destruct i as [|i]; [injection Hi as <-; reflexivity|]).
  discriminate Hi.
Qed.

(** X17.  After one pass of the loop over the tracked apps, a tracked app has
    a recorded start exactly when the pass found it running; the start
    is then the one it had before the pass, or, if it had none, the
    clock reading taken for it in this pass. *)
Theorem tick_records_running_apps (m : gmap string Z)
    (running : nat -> bool) (clock : nat -> datetime) (st : State)
    (i : nat) (app : string) :
  Forall (fun app => is_Some (m !! app)) TRACKED_APPS ->
  is_Some (time_tracking (cur st)) ->
  dict.wf (_app_started_time st) ->
  TRACKED_APPS !! i = Some app ->
  exists st',
    tick m running clock st = Ok st' /\
    dict.get (_app_started_time st') app
    = if running i
      then Some (default (clock i) (dict.get (_app_started_time st) app))
      else None.
Proof.
  intros Hids Htt Hwf Hi. unfold tick.
  assert (Hall : Forall (fun o => is_Some (m !! obs_app o))
                   (tick_trace running clock)).
  { apply Forall_forall. intros o Ho.
    rewrite Forall_forall in Hids. apply Hids.
    rewrite <- (tick_trace_apps running clock).
    by apply list_elem_of_fmap_2. }
  destruct (run_still_open m app _ st Hall Htt Hwf) as (st' & Hrun & _ & Hopen).
  exists st'. split; [done|].
  rewrite Hopen, (tick_observations_of _ _ _ _ Hi). simpl.
  by destruct (running i).
Qed.

Lemma tick_records_running_apps_witness :
  exists st',
    tick fresh_mapping (fun i => bool_decide (i = 1%nat))
      (fun i => at_second (60 + Z.of_nat i)) (open_since "code" (at_second 0))
    = Ok st' /\
    dict.get (_app_started_time st') "firefox"
    = if bool_decide (1%nat = 1%nat)
      then Some (default (at_second (60 + Z.of_nat 1))
                   (dict.get
                      (_app_started_time (open_since "code" (at_second 0)))
                      "firefox"))
      else None.
Proof.
  apply (tick_records_running_apps fresh_mapping
           (fun i => bool_decide (i = 1%nat))
           (fun i => at_second (60 + Z.of_nat i))
           (open_since "code" (at_second 0)) 1 "firefox").
  - apply (bool_decide_unpack _). vm_compute. exact I.
  - vm_compute. eauto.
  - apply NoDup_singleton.
  - reflexivity.
Defined.

(** X18.  Start-up always goes through, and running it again on the file it
    left changes nothing and gives the same ids. *)
Theorem startup_idempotent (cur0 : Database) :
  exists db m,
    startup cur0 = Ok (db, m) /\
    startup db = Ok (db, m).
Proof.
  destruct (startup_total cur0)
    as (db & registered & Hstart & Happs & [rows Hrows] & Hall).
  exists db, (name_id_dict registered). split; [done|].
  unfold startup.
  assert (Hcur1 : create_table_if_not_exists apps_table db = db).
  { unfold create_table_if_not_exists. simpl. by rewrite Happs. }
  rewrite Hcur1.
  assert (Hcur2 : create_table_if_not_exists time_tracking_table db = db).
  { unfold create_table_if_not_exists. simpl. by rewrite Hrows. }
  rewrite Hcur2. unfold populate_apps_table_if_needed.
  rewrite (populate_apps_present _ _ _ Happs Hall). simpl.
  assert (Hsame : populate_time_tracking_table_if_needed db = db).
  { unfold populate_time_tracking_table_if_needed, table_exists. simpl.
    by rewrite Hrows. }
  rewrite Hsame. unfold get_app_name_id_mapping. by rewrite Happs.
Qed.
